(** * AI-Solutions dashboard: the aggregation pipeline of
      [main.py], [dashboard.py] and [ai_solutions_sales.py]

    The three scripts load one CSV table into a pandas [DataFrame] and
    derive a handful of aggregate tables and scalars from it.  The table
    is a list of rows; the pandas calls the scripts make are given their
    library meaning in [Module Pandas]; each script line is then
    transcribed with the name it has in the source.

    The development has two layers.

    Complete rows.  The first layer takes a table in which every row has
    its hour, URL, country and status (only [Product] may be empty) and
    keeps a [Revenue] cell as a missing value or an exact rational.  It
    carries the properties that depend neither on rounding nor on empty
    fields: the classification of URLs, the job-page, demo and status
    counts, the keys and groups of the aggregate tables, the top
    product, the chart callback, the dropdown and the request total.

    The frame as loaded.  [read_csv] turns every empty field into a
    missing value and holds [Revenue] as float64.  [Module Loaded] keeps
    both: each column of a row may be missing, a revenue cell is an IEEE
    754 binary64 number, and [Module Float64] adds cells in the order
    numpy and pandas add them in ([Series.sum] pairwise, the group sums
    with Kahan's compensation).  Every property about revenue totals,
    means and colour tags, and every count that an empty field can
    change, is stated on this layer.

    Counts are Python integers, hence [Z]. *)

From Stdlib Require Import List Bool String Ascii ZArith QArith Lia Lqa Permutation.
From Stdlib Require Import Sorted DecimalString DecimalZ DecimalPos.
From Stdlib Require OrderedTypeEx.
From Stdlib Require Floats Uint63.
Import ListNotations.

Local Open Scope string_scope.
Local Open Scope Z_scope.
Local Open Scope list_scope.

(* ================================================================== *)
(** ** The pandas operations used by the scripts *)
(* ================================================================== *)

Module Pandas.

(** Python exceptions the scripts can run into. *)
Inductive exn : Type :=
| ValueError.

(** A computation that returns or raises. *)
Inductive result (A : Type) : Type :=
| Ok (a : A)
| Raise (e : exn).
Arguments Ok {A} a.
Arguments Raise {A} e.

Definition bind {A B : Type} (m : result A) (k : A -> result B) : result B :=
  match m with
  | Ok a => k a
  | Raise e => Raise e
  end.

(** A float64 cell. *)
Inductive float : Type :=
| NaN
| Fin (q : Q).

(** [s > 0] on a cell: a comparison with [NaN] is [False]. *)
Definition gt0 (x : float) : bool :=
  match x with
  | Fin q => negb (Qle_bool q 0)
  | NaN => false
  end.

(** [x >= y] on two floats. *)
Definition ge (x y : float) : bool :=
  match x, y with
  | Fin a, Fin b => Qle_bool b a
  | _, _ => false
  end.

(** The non-missing values of a float column ([skipna=True]). *)
Definition dropnan (xs : list float) : list Q :=
  flat_map (fun x => match x with Fin q => [q] | NaN => [] end) xs.

(** [Series.sum()]: missing values are skipped; the empty sum is 0. *)
Definition sum (xs : list float) : Q :=
  fold_right Qplus 0%Q (dropnan xs).

(** [Series.count()] / the ['count'] aggregation: non-missing cells. *)
Definition count (xs : list float) : Z :=
  Z.of_nat (List.length (dropnan xs)).

(** [Series.mean()]: [NaN] when there is no value to average. *)
Definition mean (xs : list float) : float :=
  if count xs =? 0 then NaN
  else Fin (sum xs / inject_Z (count xs))%Q.

(** The present values of a nullable key column ([dropna=True], the
    default of [value_counts] and [groupby]). *)
Definition dropna {K : Type} (ks : list (option K)) : list K :=
  flat_map (fun k => match k with Some x => [x] | None => [] end) ks.

(** Stable insertion sort for a boolean order [le]: [x] goes in front
    of the first element it is [le] to. *)
Section Sorting.
Context {A : Type} (le : A -> A -> bool).

Fixpoint insert (x : A) (l : list A) : list A :=
  match l with
  | [] => [x]
  | y :: l' => if le x y then x :: l else y :: insert x l'
  end.

Definition sort (l : list A) : list A := fold_right insert [] l.
End Sorting.

Section Keyed.
Context {K : Type} (eqb : K -> K -> bool).

(** [Series.isin(values)]. *)
Definition isin (k : K) (values : list K) : bool :=
  existsb (eqb k) values.

(** [Series.unique()]: the distinct values in order of first
    appearance (the order of the hash table behind [value_counts]
    and [groupby]). *)
Fixpoint unique (ks : list K) : list K :=
  match ks with
  | [] => []
  | k :: ks' => k :: filter (fun x => negb (eqb k x)) (unique ks')
  end.

(** How many cells of the column hold [k]. *)
Definition occurrences (k : K) (ks : list K) : Z :=
  Z.of_nat (List.length (filter (eqb k) ks)).

(** [Series.sort_values(ascending=False)] on a series of counts;
    equal counts keep their relative order. *)
Definition sort_values_desc (s : list (K * Z)) : list (K * Z) :=
  sort (fun a b => snd b <=? snd a) s.

(** [Series.value_counts()]: one entry per distinct value with the
    number of its occurrences, most frequent first; values with the
    same count stay in order of first appearance. *)
Definition value_counts (ks : list K) : list (K * Z) :=
  sort_values_desc (map (fun k => (k, occurrences k ks)) (unique ks)).

(** [Series.idxmax()]: the label of the first occurrence of the
    maximum; raises [ValueError] on an empty series. *)
Definition idxmax (s : list (K * Z)) : result K :=
  match s with
  | [] => Raise ValueError
  | x :: rest =>
      Ok (fst (fold_left
                 (fun best y => if snd best <? snd y then y else best)
                 rest x))
  end.

(** [Series.sort_index()] and the key order of [groupby(sort=True)]. *)
Definition sort_index {V : Type} (lek : K -> K -> bool)
           (s : list (K * V)) : list (K * V) :=
  sort (fun a b => lek (fst a) (fst b)) s.

(** [DataFrame.groupby(key)]: one group per present key value, keys
    ascending, each group holding its rows in table order.  Rows
    whose key is missing belong to no group. *)
Definition has_key {R : Type} (key : R -> option K) (k : K) (r : R) : bool :=
  match key r with
  | Some k' => eqb k k'
  | None => false
  end.

Definition groupby {R : Type} (lek : K -> K -> bool)
           (key : R -> option K) (rows : list R) : list (K * list R) :=
  map (fun k => (k, filter (has_key key k) rows))
      (sort lek (unique (dropna (map key rows)))).

(** [GroupBy.size()]. *)
Definition size {R : Type} (g : list (K * list R)) : list (K * Z) :=
  map (fun kg => (fst kg, Z.of_nat (List.length (snd kg)))) g.
End Keyed.

(** [Series.unstack().fillna(0)] on a series indexed by pairs: a grid
    with one line per first-level key and one column per second-level
    key seen anywhere; a pair that is absent from the series gives a
    missing cell, which [fillna(0)] turns into 0. *)
Section Unstack.
Context {K1 K2 : Type} (eqb1 : K1 -> K1 -> bool) (eqb2 : K2 -> K2 -> bool)
        (le1 : K1 -> K1 -> bool) (le2 : K2 -> K2 -> bool).

Fixpoint lookup (k : K1 * K2) (s : list ((K1 * K2) * Z)) : option Z :=
  match s with
  | [] => None
  | (k', v) :: s' =>
      if eqb1 (fst k) (fst k') && eqb2 (snd k) (snd k') then Some v
      else lookup k s'
  end.

Definition unstack (s : list ((K1 * K2) * Z))
  : list (K1 * list (K2 * option Z)) :=
  let index := sort le1 (unique eqb1 (map (fun e => fst (fst e)) s)) in
  let columns := sort le2 (unique eqb2 (map (fun e => snd (fst e)) s)) in
  map (fun i => (i, map (fun c => (c, lookup (i, c) s)) columns)) index.

Definition fillna (v : Z) (t : list (K1 * list (K2 * option Z)))
  : list (K1 * list (K2 * Z)) :=
  map (fun line =>
         (fst line,
          map (fun cell => (fst cell,
                            match snd cell with Some n => n | None => v end))
              (snd line)))
      t.
End Unstack.

End Pandas.

Import Pandas.

Notation "x <- m ;; k" := (bind m (fun x => k))
  (at level 61, m at next level, right associativity).

(* ================================================================== *)
(** ** The table and the lines the two dashboards share *)
(* ================================================================== *)

(** One row of [df] after line 9 has added the [Hour] column.  An empty
    [Product] field of the CSV is read as a missing value. *)
Record LogRecord : Type := mkLogRecord {
  Hour : Z;
  URL : string;
  Country : string;
  Status : Z;
  Product : option string;
  Revenue : float
}.

Definition DataFrame : Type := list LogRecord.

(** The lambda applied to [df['URL']] (same text in the three scripts). *)
Definition RequestType (x : string) : string :=
  if String.eqb x "/aiassistant.php" then "AI Assistant"
  else if String.eqb x "/scheduledemo.php" then "Scheduled Demo"
  else if String.eqb x "/event.php" then "Promotional Event"
  else if isin String.eqb x ["/job.php"; "/prototype.php"] then "Job Request"
  else "Other".

(** [df[df['RequestType'] == t]]. *)
Definition of_type (t : string) (df : DataFrame) : DataFrame :=
  filter (fun r => String.eqb (RequestType (URL r)) t) df.

(** [df[df['Revenue'] > 0]]. *)
Definition positive_revenue (df : DataFrame) : DataFrame :=
  filter (fun r => gt0 (Revenue r)) df.

(** Keys of the cross-tab: equality and the lexicographic order of
    [groupby(['Country', 'RequestType'])]. *)
Definition pair_eqb (a b : string * string) : bool :=
  String.eqb (fst a) (fst b) && String.eqb (snd a) (snd b).

Definition pair_leb (a b : string * string) : bool :=
  match String.compare (fst a) (fst b) with
  | Lt => true
  | Eq => String.leb (snd a) (snd b)
  | Gt => false
  end.

(** *** Metrics (main.py and dashboard.py, lines 19-22) *)

Definition total_requests (df : DataFrame) : Z := Z.of_nat (List.length df).

Definition total_revenue (df : DataFrame) : Q := sum (map Revenue df).

Definition avg_sale_value (df : DataFrame) : float :=
  mean (map Revenue (positive_revenue df)).

Definition top_product (df : DataFrame) : result string :=
  idxmax (value_counts String.eqb (dropna (map Product (positive_revenue df)))).

(** The four assignments in sequence: an exception of one of them ends
    the script, nothing catches it. *)
Record Metrics : Type := mkMetrics {
  m_total_requests : Z;
  m_total_revenue : Q;
  m_avg_sale_value : float;
  m_top_product : string
}.

Definition metrics (df : DataFrame) : result Metrics :=
  let n := total_requests df in
  let rev := total_revenue df in
  let avg := avg_sale_value df in
  top <- top_product df ;;
  Ok (mkMetrics n rev avg top).

(** *** Aggregated data common to both dashboards *)

Definition requests_per_hour (df : DataFrame) : list (Z * Z) :=
  sort_index Z.leb (value_counts Z.eqb (map Hour df)).

Definition demo_by_country (df : DataFrame) : list (string * Z) :=
  value_counts String.eqb (map Country (of_type "Scheduled Demo" df)).

Definition type_country (df : DataFrame) : list ((string * string) * Z) :=
  size (groupby pair_eqb pair_leb
                (fun r => Some (Country r, RequestType (URL r))) df).

Definition status_counts (df : DataFrame) : list (Z * Z) :=
  value_counts Z.eqb (map Status df).

(** ['green' if x >= avg_sale_value else 'red']. *)
Definition Color (avg : float) (x : float) : string :=
  if ge x avg then "green" else "red".

(** *** The dashboard process: module globals and the chart callback *)

Record Globals : Type := mkGlobals {
  g_df : DataFrame;
  g_type_country : list ((string * string) * Z)
}.

Definition load (df : DataFrame) : Globals :=
  mkGlobals df (type_country df).

(** What [px.bar(filtered, ...)] followed by [update_layout] is given:
    the rows to draw, the title and the legend switch. *)
Record Figure : Type := mkFigure {
  fig_rows : list ((string * string) * Z);
  fig_title : string;
  fig_showlegend : bool
}.

(** [type_country[type_country['Country'] == selected_country]]; the
    dropdown value may be [None], which equals no country. *)
Definition filtered (tc : list ((string * string) * Z))
           (selected_country : option string) : list ((string * string) * Z) :=
  filter (fun row => match selected_country with
                     | Some c => String.eqb (fst (fst row)) c
                     | None => false
                     end) tc.

(** [f"{selected_country}"]. *)
Definition fmt (selected_country : option string) : string :=
  match selected_country with
  | Some c => c
  | None => "None"
  end.

(** A callback reads the globals and hands them on. *)
Definition callback (A : Type) : Type := Globals -> A * Globals.

(* ================================================================== *)
(** ** main.py *)
(* ================================================================== *)

Module Main.

(** Lines 28-29. *)
Definition job_counts (df : DataFrame) : list (string * Z) :=
  value_counts String.eqb (map URL (of_type "Job Request" df)).

(** Lines 35-50: the three named aggregations of [Revenue]. *)
Record Sales : Type := mkSales {
  TotalRevenue : Q;
  CountSales : Z;
  AvgSaleValue : float
}.

Definition agg (rows : list LogRecord) : Sales :=
  mkSales (sum (map Revenue rows)) (count (map Revenue rows))
          (mean (map Revenue rows)).

Definition sales_by_product (df : DataFrame) : list ((string * Sales) * string) :=
  map (fun g => ((fst g, agg (snd g)),
                 Color (avg_sale_value df) (AvgSaleValue (agg (snd g)))))
      (groupby String.eqb String.leb Product (positive_revenue df)).

Definition sales_by_country (df : DataFrame) : list (string * Sales) :=
  map (fun g => (fst g, agg (snd g)))
      (groupby String.eqb String.leb (fun r => Some (Country r))
               (positive_revenue df)).

(** Lines 186-192. *)
Definition update_request_type_chart (selected_country : option string)
  : callback Figure :=
  fun g =>
    (mkFigure (filtered (g_type_country g) selected_country)
              (String.append "Request Types Breakdown for " (fmt selected_country))
              false,
     g).

End Main.

(* ================================================================== *)
(** ** dashboard.py *)
(* ================================================================== *)

Module Dashboard.

(** Lines 29-32. *)
Definition job_pages : list string :=
  ["/job.php"; "/scheduledemo.php"; "/aiassistant.php"; "/event.php";
   "/prototype.php"].

Definition df_jobs (df : DataFrame) : DataFrame :=
  filter (fun r => isin String.eqb (URL r) job_pages) df.

Definition job_counts (df : DataFrame) : list (string * Z) :=
  value_counts String.eqb (map URL (df_jobs df)).

(** Lines 37-39: the recommendation attached to a demo count. *)
Definition Action (x : Z) : string :=
  if 1000 <? x then "💡 Webinar"
  else if 500 <? x then "📧 Email Campaign"
  else "📄 Translate Page".

Definition demo_by_country (df : DataFrame) : list ((string * Z) * string) :=
  map (fun row => (row, Action (snd row))) (demo_by_country df).

(** Lines 45-57. *)
Record Sales : Type := mkSales {
  TotalRevenue : Q;
  AvgSale : float
}.

Definition agg (rows : list LogRecord) : Sales :=
  mkSales (sum (map Revenue rows)) (mean (map Revenue rows)).

Definition sales_by_product (df : DataFrame) : list ((string * Sales) * string) :=
  map (fun g => ((fst g, agg (snd g)),
                 Color (avg_sale_value df) (AvgSale (agg (snd g)))))
      (groupby String.eqb String.leb Product (positive_revenue df)).

Definition sales_by_country (df : DataFrame) : list (string * Sales) :=
  map (fun g => (fst g, agg (snd g)))
      (groupby String.eqb String.leb (fun r => Some (Country r))
               (positive_revenue df)).

(** Lines 173-178. *)
Definition update_request_type_chart (selected_country : option string)
  : callback Figure :=
  fun g =>
    (mkFigure (filtered (g_type_country g) selected_country)
              (String.append "Request Type Breakdown in " (fmt selected_country))
              false,
     g).

End Dashboard.

(* ================================================================== *)
(** ** ai_solutions_sales.py *)
(* ================================================================== *)

Module Batch.

(** Lines 37-40. *)
Definition job_pages : list string :=
  ["/job.php"; "/scheduledemo.php"; "/aiassistant.php"; "/event.php";
   "/prototype.php"].

Definition df_jobs (df : DataFrame) : DataFrame :=
  filter (fun r => isin String.eqb (URL r) job_pages) df.

Definition job_counts (df : DataFrame) : list (string * Z) :=
  value_counts String.eqb (map URL (df_jobs df)).

(** Lines 49-50. *)
Definition demo_requests (df : DataFrame) : DataFrame :=
  filter (fun r => String.eqb (URL r) "/scheduledemo.php") df.

Definition demo_counts (df : DataFrame) : list (string * Z) :=
  value_counts String.eqb (map Country (demo_requests df)).

(** Line 61: the cross-tab is spread into a Country x RequestType grid
    and the holes are filled with 0. *)
Definition type_country (df : DataFrame) : list (string * list (string * Z)) :=
  fillna 0 (unstack String.eqb String.eqb String.leb String.leb
                    (size (groupby pair_eqb pair_leb
                             (fun r => Some (Country r, RequestType (URL r)))
                             df))).

End Batch.

(* ================================================================== *)
(** ** Notions used to state the properties, and sample tables *)
(* ================================================================== *)

(** Sum of a column of counts, and of a column of exact amounts. *)
Definition total (cs : list Z) : Z := fold_right Z.add 0 cs.
Definition Qtotal (qs : list Q) : Q := fold_right Qplus 0%Q qs.

(** Whether a nullable key is there. *)
Definition present {K : Type} (o : option K) : bool :=
  match o with
  | Some _ => true
  | None => false
  end.

(** The five labels of the classification. *)
Definition labels : list string :=
  ["AI Assistant"; "Scheduled Demo"; "Promotional Event"; "Job Request"; "Other"].

(** The five URLs the classification and the job chart know. *)
Definition known_urls : list string :=
  ["/job.php"; "/scheduledemo.php"; "/aiassistant.php"; "/event.php";
   "/prototype.php"].

(** The rows whose URL is one of [urls], and the number of rows whose
    URL is exactly [u]. *)
Definition rows_in (urls : list string) (df : DataFrame) : DataFrame :=
  filter (fun r => if in_dec string_dec (URL r) urls then true else false) df.

Definition visits (u : string) (df : DataFrame) : Z :=
  Z.of_nat (List.length (filter (fun r => String.eqb (URL r) u) df)).

(** A table of counts [t] groups the key column [ks] exactly: no key
    twice, the keys are the values that occur in [ks], and every count
    is the number of occurrences of its key, which is at least one. *)
Definition counts_exactly {K : Type} (eqb : K -> K -> bool)
           (ks : list K) (t : list (K * Z)) : Prop :=
  NoDup (map fst t) /\
  (forall k, In k ks <-> In k (map fst t)) /\
  (forall k c, In (k, c) t -> c = occurrences eqb k ks /\ 1 <= c).


(** The (Country, RequestType) pair of every row. *)
Definition type_pairs (df : DataFrame) : list (string * string) :=
  map (fun r => (Country r, RequestType (URL r))) df.

(** The products sold: the [Product] column of the positive-revenue
    rows without its missing cells, i.e. what [top_product] counts. *)
Definition sold_products (df : DataFrame) : list string :=
  dropna (map Product (positive_revenue df)).

(** How many positive-revenue rows name the product [p]. *)
Definition sales_count (df : DataFrame) (p : string) : Z :=
  Z.of_nat (List.length
              (filter (fun r => gt0 (Revenue r) && has_key String.eqb Product p r) df)).

(** The positive-revenue rows of [df] filed under key [k]. *)
Definition sales_of (key : LogRecord -> option string) (df : DataFrame) (k : string)
  : list LogRecord :=
  filter (fun r => gt0 (Revenue r) && has_key String.eqb key k r) df.

(** The three rows of the end-to-end example. *)
Definition example_rows : DataFrame :=
  [ mkLogRecord 10 "/aiassistant.php" "USA" 200 (Some "Widget") (Fin 100);
    mkLogRecord 10 "/scheduledemo.php" "USA" 200 None (Fin 0);
    mkLogRecord 23 "/unknown.php" "UK" 404 None (Fin 0) ].

(** A log without a sale. *)
Definition no_sale_rows : DataFrame :=
  [ mkLogRecord 10 "/scheduledemo.php" "USA" 200 None (Fin 0);
    mkLogRecord 23 "/unknown.php" "UK" 404 None (Fin 0) ].

(** A sale whose product field is empty. *)
Definition unnamed_sale : DataFrame :=
  [ mkLogRecord 9 "/job.php" "USA" 200 None (Fin 5) ].

(** Two products sold once each, the alphabetically later one first. *)
Definition tied_sales : DataFrame :=
  [ mkLogRecord 9 "/job.php" "USA" 200 (Some "Zeta") (Fin 10);
    mkLogRecord 9 "/job.php" "UK" 200 (Some "Alpha") (Fin 10) ].

(* ================================================================== *)
(** ** The rest of the scripts: layout values and chart inputs *)
(* ================================================================== *)

(** main.py line 172, dashboard.py line 162: the entries of the country
    dropdown, [{'label': c, 'value': c} for c in sorted(df['Country'].unique())],
    each a (label, value) pair; the preselected value is 'USA'. *)
Definition dropdown_options (df : DataFrame) : list (string * string) :=
  map (fun c => (c, c)) (sort String.leb (unique String.eqb (map Country df))).

Definition dropdown_value : string := "USA".

(** [f"{n:,}"] on a Python integer: the decimal digits, a comma before
    every group of three counted from the right, the sign in front. *)
Fixpoint commas_rev (ds : list ascii) (k : nat) : list ascii :=
  match ds with
  | [] => []
  | d :: ds' =>
      if Nat.eqb k 3 then ","%char :: d :: commas_rev ds' 1
      else d :: commas_rev ds' (S k)
  end.

Definition group_digits (digits : string) : string :=
  string_of_list_ascii (rev (commas_rev (rev (list_ascii_of_string digits)) 0)).

Definition fmt_commas (n : Z) : string :=
  match Z.to_int n with
  | Decimal.Pos d => group_digits (NilZero.string_of_uint d)
  | Decimal.Neg d => String "-"%char (group_digits (NilZero.string_of_uint d))
  end.

(** The text of the "Total Requests" card, [f"{total_requests:,}"]. *)
Definition total_requests_text (df : DataFrame) : string :=
  fmt_commas (total_requests df).

(** Reading such a text back: drop the commas, parse the integer. *)
Definition drop_commas (s : string) : string :=
  string_of_list_ascii
    (filter (fun c => negb (Ascii.eqb c ","%char)) (list_ascii_of_string s)).

Definition read_int (s : string) : option Z :=
  option_map Z.of_int (NilZero.int_of_string (drop_commas s)).

Module BatchCharts.

(** Line 41: [sns.color_palette('pastel')[0:len(job_counts)]]; the
    palette is seaborn's, taken as a parameter; a slice stops at the end
    of the list. *)
Definition colors {C : Type} (palette : list C) (df : DataFrame) : list C :=
  firstn (List.length (Batch.job_counts df)) palette.

(** [frame[[c1, c2, ...]]] either gives the frame cut down to the wanted
    columns, in the order asked for, or raises [KeyError] with the labels
    that are not columns of the frame. *)
Inductive selection (A : Type) : Type :=
| Selected (a : A)
| KeyError (missing : list string).
Arguments Selected {A} a.
Arguments KeyError {A} missing.

Definition select_columns (wanted cols : list string)
           (t : list (string * list (string * Z)))
  : selection (list (string * list (string * Z))) :=
  match filter (fun w => negb (isin String.eqb w cols)) wanted with
  | [] =>
      Selected
        (map (fun line =>
                (fst line,
                 flat_map (fun w => filter (fun cell => String.eqb (fst cell) w)
                                           (snd line))
                          wanted))
             t)
  | missing => KeyError missing
  end.

End BatchCharts.

(** *** Notions for the properties below *)

(** Rows in non-increasing order of their count. *)
Definition count_desc {K : Type} (a b : K * Z) : Prop := snd b <= snd a.

(** The rows of one country. *)
Definition rows_of_country (c : string) (df : DataFrame) : DataFrame :=
  filter (fun r => String.eqb (Country r) c) df.

(** A palette of ten colours, the size of seaborn's named palettes. *)
Definition ten_colors : list string :=
  ["#a1c9f4"; "#ffb482"; "#8de5a1"; "#ff9f9b"; "#d0bbff";
   "#debb9b"; "#fab0e4"; "#cfcfcf"; "#fffea3"; "#b9f2f0"].

(** One row of the demo table of dashboard.py stands above another:
    its count is not smaller, and its recommendation is not of a lower
    tier (Webinar over Email Campaign over Translate Page). *)
Definition tier_order (a b : (string * Z) * string) : Prop :=
  snd (fst b) <= snd (fst a) /\
  (snd b = "💡 Webinar" -> snd a = "💡 Webinar") /\
  (snd a = "📄 Translate Page" -> snd b = "📄 Translate Page").

(** A character other than the comma. *)
Definition not_comma (c : ascii) : bool := negb (Ascii.eqb c ","%char).

(** Strictly ascending strings. *)
Definition string_lt (a b : string) : Prop := String.ltb a b = true.

(** Strictly ascending (Country, RequestType) pairs, country first. *)
Definition pair_lt (a b : string * string) : Prop :=
  string_lt (fst a) (fst b) \/ (fst a = fst b /\ string_lt (snd a) (snd b)).

(* ================================================================== *)
(** ** The frame as loaded: missing cells and float64 amounts *)
(* ================================================================== *)

(** [read_csv] turns any empty field into a missing value and reads the
    [Revenue] column as float64.  The modules below keep both: every
    column of a row may be missing, an amount is an IEEE 754 binary64
    number ([NaN] when missing), and sums and means are computed in the
    order numpy and pandas add them in, with the rounding of each
    addition. *)

#[local] Set Warnings "-inexact-float".

Module Float64.
Import PrimFloat.
Local Open Scope float_scope.

(** A count as a float64 divisor. *)
Definition of_count (n : Z) : float := of_uint63 (Uint63.of_Z n).

(** [x != x]. *)
Definition isnan (x : float) : bool := negb (x =? x).

(** [s > 0] and [x >= y] on cells. *)
Definition gt0 (x : float) : bool := 0 <? x.
Definition ge (x y : float) : bool := y <=? x.

(** The non-missing cells, their number, and the column with its missing
    cells set to 0 (what [nansum] and [nanmean] reduce). *)
Definition notna (xs : list float) : list float :=
  filter (fun x => negb (isnan x)) xs.

Definition count (xs : list float) : Z := Z.of_nat (List.length (notna xs)).

Definition fill0 (xs : list float) : list float :=
  map (fun x => if isnan x then 0 else x) xs.

(** numpy's pairwise summation of a contiguous float64 array: fewer than
    8 items are added left to right; up to 128 items go through eight
    running sums that are combined as a tree, the items after the last
    full group of eight being added one by one; longer arrays are cut in
    two halves. *)
Fixpoint add_lanes (r a : list float) : list float :=
  match r, a with
  | x :: r', y :: a' => (x + y) :: add_lanes r' a'
  | _, _ => r
  end.

Fixpoint unrolled (fuel : nat) (r a : list float) : list float * list float :=
  match fuel with
  | O => (r, a)
  | S fuel' =>
      if Nat.leb 8 (List.length a)
      then unrolled fuel' (add_lanes r (firstn 8 a)) (skipn 8 a)
      else (r, a)
  end.

Definition combine8 (r : list float) : float :=
  match r with
  | [r0; r1; r2; r3; r4; r5; r6; r7] =>
      ((r0 + r1) + (r2 + r3)) + ((r4 + r5) + (r6 + r7))
  | _ => nan
  end.

Definition block_sum (a : list float) : float :=
  let '(r, rest) := unrolled (List.length a) (firstn 8 a) (skipn 8 a) in
  fold_left add rest (combine8 r).

Fixpoint pairwise_sum (fuel : nat) (a : list float) : float :=
  let n := List.length a in
  if Nat.ltb n 8 then fold_left add a (-0)
  else if Nat.leb n 128 then block_sum a
  else match fuel with
       | O => block_sum a
       | S fuel' =>
           let n2 := (n / 2 - (n / 2) mod 8)%nat in
           pairwise_sum fuel' (firstn n2 a) + pairwise_sum fuel' (skipn n2 a)
       end.

(** [ndarray.sum()]: the reduction starts from the identity 0. *)
Definition add_reduce (a : list float) : float :=
  0 + pairwise_sum (List.length a) a.

(** [Series.sum()] and [Series.mean()] ([skipna=True]). *)
Definition nansum (xs : list float) : float := add_reduce (fill0 xs).

Definition nanmean (xs : list float) : float :=
  if (count xs =? 0)%Z then nan else nansum xs / of_count (count xs).

(** The ['sum'] and ['mean'] aggregations of [groupby]: one pass per
    group with Kahan's compensated summation over the non-missing
    cells. *)
Definition kahan_step (st : float * float) (val : float) : float * float :=
  let '(sumx, compensation) := st in
  let y := val - compensation in
  let t := sumx + y in
  let c := (t - sumx) - y in
  (t, if isnan c then 0 else c).

Definition kahan (xs : list float) : float :=
  fst (fold_left kahan_step xs (0, 0)).

Definition group_sum (xs : list float) : float := kahan (notna xs).

Definition group_mean (xs : list float) : float :=
  if (count xs =? 0)%Z then nan else kahan (notna xs) / of_count (count xs).

(** The number a finite cell stands for, as an exact rational (0 for a
    cell that is not finite). *)
Definition exact (x : float) : Q :=
  match FloatOps.Prim2SF x with
  | SpecFloat.S754_finite s m e =>
      ((if s then -1 else 1) * inject_Z (Z.pos m) * (2 ^ e))%Q
  | _ => 0%Q
  end.

Definition finite (x : float) : bool :=
  match FloatOps.Prim2SF x with
  | SpecFloat.S754_finite _ _ _ | SpecFloat.S754_zero _ => true
  | _ => false
  end.

(** A cell that is +0 or -0, and a cell above 0 (infinity included). *)
Definition is_zero (x : float) : Prop :=
  exists s, FloatOps.Prim2SF x = SpecFloat.S754_zero s.

Definition is_positive (x : float) : Prop :=
  FloatOps.Prim2SF x = SpecFloat.S754_infinity false \/
  exists m e, FloatOps.Prim2SF x = SpecFloat.S754_finite false m e.

(** A cell that is zero, positive or missing: never negative. *)
Definition not_negative (x : float) : bool := ge x 0 || isnan x.

End Float64.

Module Loaded.

(** A row of [df] with the [Hour] and [Revenue] columns as pandas holds
    them. *)
Record Row : Type := mkRow {
  Hour : option Z;
  URL : option string;
  Country : option string;
  Status : option Z;
  Product : option string;
  Revenue : PrimFloat.float
}.

Definition Frame : Type := list Row.

(** The lambda on a cell that may be missing: a missing URL equals no
    string and is in no list. *)
Definition RequestType (x : option string) : string :=
  match x with
  | Some u => RequestType u
  | None => "Other"
  end.

Definition of_type (t : string) (df : Frame) : Frame :=
  filter (fun r => String.eqb (RequestType (URL r)) t) df.

Definition positive_revenue (df : Frame) : Frame :=
  filter (fun r => Float64.gt0 (Revenue r)) df.

(** Metrics, lines 19-22. *)
Definition total_requests (df : Frame) : Z := Z.of_nat (List.length df).

Definition total_revenue (df : Frame) : PrimFloat.float :=
  Float64.nansum (map Revenue df).

Definition avg_sale_value (df : Frame) : PrimFloat.float :=
  Float64.nanmean (map Revenue (positive_revenue df)).

Definition top_product (df : Frame) : result string :=
  idxmax (value_counts String.eqb (dropna (map Product (positive_revenue df)))).

Record Metrics : Type := mkMetrics {
  m_total_requests : Z;
  m_total_revenue : PrimFloat.float;
  m_avg_sale_value : PrimFloat.float;
  m_top_product : string
}.

Definition metrics (df : Frame) : result Metrics :=
  let n := total_requests df in
  let rev := total_revenue df in
  let avg := avg_sale_value df in
  top <- top_product df ;;
  Ok (mkMetrics n rev avg top).

(** The count tables. *)
Definition requests_per_hour (df : Frame) : list (Z * Z) :=
  sort_index Z.leb (value_counts Z.eqb (dropna (map Hour df))).

Definition status_counts (df : Frame) : list (Z * Z) :=
  value_counts Z.eqb (dropna (map Status df)).

Definition demo_by_country (df : Frame) : list (string * Z) :=
  value_counts String.eqb (dropna (map Country (of_type "Scheduled Demo" df))).

(** The key of [groupby(['Country', 'RequestType'])]: the derived
    request type is never missing, the country may be. *)
Definition pair_key (r : Row) : option (string * string) :=
  match Country r with
  | Some c => Some (c, RequestType (URL r))
  | None => None
  end.

Definition type_country (df : Frame) : list ((string * string) * Z) :=
  size (groupby pair_eqb pair_leb pair_key df).

Definition Color (avg x : PrimFloat.float) : string :=
  if Float64.ge x avg then "green" else "red".

(** Whether a frame names a sale, i.e. whether line 22 returns. *)
Definition sales_of (key : Row -> option string) (df : Frame) (k : string) : Frame :=
  filter (fun r => Float64.gt0 (Revenue r) && has_key String.eqb key k r) df.

Module Main.

Record Sales : Type := mkSales {
  TotalRevenue : PrimFloat.float;
  CountSales : Z;
  AvgSaleValue : PrimFloat.float
}.

Definition agg (rows : list Row) : Sales :=
  mkSales (Float64.group_sum (map Revenue rows))
          (Float64.count (map Revenue rows))
          (Float64.group_mean (map Revenue rows)).

Definition sales_by_product (df : Frame) : list ((string * Sales) * string) :=
  map (fun g => ((fst g, agg (snd g)),
                 Color (avg_sale_value df) (AvgSaleValue (agg (snd g)))))
      (groupby String.eqb String.leb Product (positive_revenue df)).

Definition sales_by_country (df : Frame) : list (string * Sales) :=
  map (fun g => (fst g, agg (snd g)))
      (groupby String.eqb String.leb Country (positive_revenue df)).

End Main.

Module Dashboard.

Record Sales : Type := mkSales {
  TotalRevenue : PrimFloat.float;
  AvgSale : PrimFloat.float
}.

Definition agg (rows : list Row) : Sales :=
  mkSales (Float64.group_sum (map Revenue rows))
          (Float64.group_mean (map Revenue rows)).

Definition sales_by_product (df : Frame) : list ((string * Sales) * string) :=
  map (fun g => ((fst g, agg (snd g)),
                 Color (avg_sale_value df) (AvgSale (agg (snd g)))))
      (groupby String.eqb String.leb Product (positive_revenue df)).

Definition sales_by_country (df : Frame) : list (string * Sales) :=
  map (fun g => (fst g, agg (snd g)))
      (groupby String.eqb String.leb Country (positive_revenue df)).

End Dashboard.

Module Batch.

(** Lines 61-62. *)
Definition type_country (df : Frame) : list (string * list (string * Z)) :=
  fillna 0 (unstack String.eqb String.eqb String.leb String.leb
                    (Loaded.type_country df)).

Definition columns (df : Frame) : list string :=
  sort String.leb
       (unique String.eqb (map (fun e => snd (fst e)) (Loaded.type_country df))).

Definition ai_vs_other (df : Frame)
  : BatchCharts.selection (list (string * list (string * Z))) :=
  BatchCharts.select_columns ["AI Assistant"; "Other"] (columns df) (type_country df).

(** Line 83: every row that has a country is grouped, whatever its
    revenue. *)
Definition sales_by_country (df : Frame) : list (string * PrimFloat.float) :=
  map (fun g => (fst g, Float64.group_sum (map Revenue (snd g))))
      (groupby String.eqb String.leb Country df).

(** Lines 61-83 in order: line 83 runs once line 62 has returned. *)
Definition run_sales_by_country (df : Frame)
  : BatchCharts.selection (list (string * PrimFloat.float)) :=
  match ai_vs_other df with
  | BatchCharts.Selected _ => BatchCharts.Selected (sales_by_country df)
  | BatchCharts.KeyError missing => BatchCharts.KeyError missing
  end.

End Batch.

(** *** Notions used to state the properties of the loaded frame *)

(** The rows that have a value in the column [col]. *)
Definition rows_with {K : Type} (col : Row -> option K) (df : Frame) : Frame :=
  filter (fun r => present (col r)) df.

(** The positive-revenue rows that have a key. *)
Definition keyed_sales (key : Row -> option string) (df : Frame) : Frame :=
  filter (fun r => Float64.gt0 (Revenue r) && present (key r)) df.

(** The amounts of some rows as exact numbers: their total and mean. *)
Definition exact_total (rows : list Row) : Q :=
  Qtotal (map (fun r => Float64.exact (Revenue r)) rows).

Definition exact_mean (rows : list Row) : Q :=
  (exact_total rows / inject_Z (Z.of_nat (List.length rows)))%Q.

(** A table of revenue summaries [t] keyed by [key] is built from the
    sales of [df] and from nothing else: it has one row per key of a
    positive-revenue row, the summary of a key is the aggregation of the
    positive-revenue rows filed under it, and the groups, put end to
    end, are the positive-revenue rows that have a key, each once; so
    the exact amounts of the groups add up to the exact amount of those
    rows. *)
Definition built_from_sales {S : Type} (key : Row -> option string)
           (agg : list Row -> S) (df : Frame) (t : list (string * S)) : Prop :=
  NoDup (map fst t) /\
  (forall k, In k (map fst t)
             <-> exists r, In r df /\ Float64.gt0 (Revenue r) = true /\ key r = Some k) /\
  (forall k s, In (k, s) t -> s = agg (sales_of key df k)) /\
  Permutation (flat_map (sales_of key df) (map fst t)) (keyed_sales key df) /\
  (Qtotal (map (fun k => exact_total (sales_of key df k)) (map fst t))
   == exact_total (keyed_sales key df))%Q.

(** The (Country, RequestType) pairs of the rows that have a country. *)
Definition type_pairs (df : Frame) : list (string * string) :=
  dropna (map pair_key df).

(** The rows of country [c], whatever their revenue. *)
Definition rows_of_country (c : string) (df : Frame) : Frame :=
  filter (has_key String.eqb Country c) df.

(** The number of rows of country [c] and request type [t]. *)
Definition rows_of_pair (c t : string) (df : Frame) : Z :=
  Z.of_nat (List.length
              (filter (fun r => has_key String.eqb Country c r
                                && String.eqb (RequestType (URL r)) t) df)).

(** *** Sample frames *)

Import PrimFloat.

(** A named sale and a sale whose product field is empty. *)
Definition named_and_unnamed : Frame :=
  [ mkRow (Some 9) (Some "/job.php") (Some "USA") (Some 200) (Some "Widget") 100%float;
    mkRow (Some 9) (Some "/job.php") (Some "USA") (Some 200) None 5%float ].

(** Three sales of one product. *)
Definition three_sales : Frame :=
  [ mkRow (Some 9) (Some "/job.php") (Some "USA") (Some 200) (Some "A") 0.1%float;
    mkRow (Some 9) (Some "/job.php") (Some "USA") (Some 200) (Some "A") 0.2%float;
    mkRow (Some 9) (Some "/job.php") (Some "USA") (Some 200) (Some "A") 0.3%float ].

(** The same three sales among five visits without revenue. *)
Definition eight_rows : Frame :=
  [ mkRow (Some 9) (Some "/job.php") (Some "USA") (Some 200) (Some "A") 0.1%float;
    mkRow (Some 9) (Some "/event.php") (Some "USA") (Some 200) None 0%float;
    mkRow (Some 9) (Some "/job.php") (Some "USA") (Some 200) (Some "A") 0.2%float;
    mkRow (Some 9) (Some "/job.php") (Some "USA") (Some 200) (Some "A") 0.3%float;
    mkRow (Some 10) (Some "/event.php") (Some "USA") (Some 200) None 0%float;
    mkRow (Some 10) (Some "/event.php") (Some "UK") (Some 200) None 0%float;
    mkRow (Some 11) (Some "/event.php") (Some "UK") (Some 200) None 0%float;
    mkRow (Some 11) (Some "/index.php") (Some "UK") (Some 404) None 0%float ].

(** A large sale without a product next to a small named one. *)
Definition unnamed_big_sale : Frame :=
  [ mkRow (Some 9) (Some "/job.php") (Some "USA") (Some 200) None 100%float;
    mkRow (Some 9) (Some "/job.php") (Some "USA") (Some 200) (Some "A") 10%float ].

(** The three rows of the end-to-end example: a sale through the
    assistant, a demo request and a visit elsewhere without revenue. *)
Definition example_frame : Frame :=
  [ mkRow (Some 10) (Some "/aiassistant.php") (Some "USA") (Some 200) (Some "Widget") 100%float;
    mkRow (Some 10) (Some "/scheduledemo.php") (Some "USA") (Some 200) None 0%float;
    mkRow (Some 23) (Some "/unknown.php") (Some "UK") (Some 404) None 0%float ].

(** The same three rows, the last one with an empty country field. *)
Definition blank_country : Frame :=
  [ mkRow (Some 10) (Some "/aiassistant.php") (Some "USA") (Some 200) (Some "Widget") 100%float;
    mkRow (Some 10) (Some "/scheduledemo.php") (Some "USA") (Some 200) None 0%float;
    mkRow (Some 23) (Some "/unknown.php") None (Some 404) None 0%float ].

(** Sales in two countries, a visit without revenue and a row whose
    amount is missing. *)
Definition mixed_sales : Frame :=
  [ mkRow (Some 8) (Some "/job.php") (Some "USA") (Some 200) (Some "Widget") 30%float;
    mkRow (Some 9) (Some "/event.php") (Some "UK") (Some 200) None 0%float;
    mkRow (Some 9) (Some "/aiassistant.php") (Some "USA") (Some 200) (Some "Gadget") 12.5%float;
    mkRow (Some 11) (Some "/unknown.php") (Some "UK") (Some 404) None PrimFloat.nan  ].

End Loaded.

(** A sale on a job page and a visit of the event page. *)
Definition job_and_event : DataFrame :=
  [ mkLogRecord 9 "/job.php" "USA" 200 (Some "Widget") (Fin 100);
    mkLogRecord 9 "/event.php" "USA" 200 None (Fin 0) ].

(* ================================================================== *)
(** ** Facts about the pandas layer *)
(* ================================================================== *)

Section SortFacts.
Context {A : Type} (le : A -> A -> bool).

Lemma insert_perm (x : A) (l : list A) : Permutation (insert le x l) (x :: l).
Proof.
  induction l as [|y l IH]; simpl; [reflexivity|].
  destruct (le x y); [reflexivity|].
  rewrite IH. apply perm_swap.
Qed.

Lemma sort_perm (l : list A) : Permutation (sort le l) l.
Proof.
  induction l as [|x l IH]; simpl; [constructor|].
  rewrite insert_perm. now constructor.
Qed.

Lemma sort_In (l : list A) (x : A) : In x (sort le l) <-> In x l.
Proof.
  split; apply Permutation_in; [|symmetry]; apply sort_perm.
Qed.

(** Stability: inside a class [p] whose members are [le] to each other
    the sort changes nothing. *)
Section Stable.
Variable p : A -> bool.
Hypothesis class_le : forall a b, p a = true -> p b = true -> le a b = true.

Lemma insert_filter (x : A) (l : list A) :
  filter p (insert le x l) = filter p (x :: l).
Proof.
  induction l as [|y l IH]; [reflexivity|].
  cbn [insert]. destruct (le x y) eqn:Hxy; [reflexivity|].
  cbn [filter] in *. rewrite IH.
  destruct (p x) eqn:Hx, (p y) eqn:Hy; try reflexivity.
  rewrite (class_le x y Hx Hy) in Hxy. discriminate.
Qed.

Lemma sort_filter (l : list A) : filter p (sort le l) = filter p l.
Proof.
  induction l as [|x l IH]; [reflexivity|].
  cbn [sort fold_right]. fold (sort le l).
  rewrite insert_filter. cbn [filter]. now rewrite IH.
Qed.
End Stable.
End SortFacts.

Lemma filter_twice {A : Type} (p q : A -> bool) (l : list A) :
  filter p (filter q l) = filter (fun x => q x && p x) l.
Proof.
  induction l as [|x l IH]; [reflexivity|].
  cbn [filter]. destruct (q x); cbn [filter andb]; now rewrite IH.
Qed.

Lemma total_perm (l l' : list Z) : Permutation l l' -> total l = total l'.
Proof.
  induction 1; simpl; lia.
Qed.

Lemma Qtotal_perm (l l' : list Q) : Permutation l l' -> (Qtotal l == Qtotal l')%Q.
Proof.
  induction 1; simpl.
  - reflexivity.
  - now rewrite IHPermutation.
  - ring.
  - now rewrite IHPermutation1.
Qed.

Lemma Qtotal_app (l l' : list Q) : (Qtotal (l ++ l') == Qtotal l + Qtotal l')%Q.
Proof.
  induction l as [|x l IH]; simpl; [ring|]. rewrite IH. ring.
Qed.

Section KeyFacts.
Context {K : Type} (eqb : K -> K -> bool).
Hypothesis eqb_eq : forall x y, eqb x y = true <-> x = y.

Lemma key_eqb_refl (x : K) : eqb x x = true.
Proof. now apply eqb_eq. Qed.

Lemma key_eqb_neq (x y : K) : eqb x y = false <-> x <> y.
Proof.
  rewrite <- eqb_eq. destruct (eqb x y); split; congruence.
Qed.

Lemma isin_In (k : K) (values : list K) : isin eqb k values = true <-> In k values.
Proof.
  unfold isin. rewrite existsb_exists. split.
  - intros [x [Hx Hk]]. apply eqb_eq in Hk. now subst.
  - intros H. exists k. split; [assumption | apply key_eqb_refl].
Qed.

Lemma unique_In (ks : list K) (k : K) : In k (unique eqb ks) <-> In k ks.
Proof.
  induction ks as [|a ks IH]; simpl; [tauto|].
  rewrite filter_In, IH, negb_true_iff, key_eqb_neq. split.
  - intros [H | [H _]]; auto.
  - intros [H | H]; auto.
    destruct (eqb a k) eqn:E.
    + left. now apply eqb_eq.
    + right. split; [assumption | now apply key_eqb_neq].
Qed.

Lemma unique_NoDup (ks : list K) : NoDup (unique eqb ks).
Proof.
  induction ks as [|a ks IH]; simpl; constructor.
  - rewrite filter_In, negb_true_iff, key_eqb_neq. tauto.
  - now apply NoDup_filter.
Qed.

(** Selecting a class of keys commutes with [unique]. *)
Lemma filter_unique (q : K -> bool) (ks : list K) :
  filter q (unique eqb ks) = unique eqb (filter q ks).
Proof.
  induction ks as [|a ks IH]; [reflexivity|].
  cbn [unique filter]. destruct (q a) eqn:Hqa; cbn [unique].
  - f_equal. rewrite <- IH, !filter_twice.
    apply filter_ext. intros x. apply andb_comm.
  - rewrite <- IH, filter_twice.
    apply filter_ext. intros x.
    destruct (eqb a x) eqn:E; [|reflexivity].
    apply eqb_eq in E. subst. now rewrite Hqa.
Qed.
End KeyFacts.

Lemma filter_split_perm {A : Type} (p : A -> bool) (l : list A) :
  Permutation (filter p l ++ filter (fun x => negb (p x)) l) l.
Proof.
  induction l as [|x l IH]; [constructor|].
  cbn [filter]. destruct (p x); cbn [negb app].
  - now constructor.
  - rewrite <- Permutation_middle. now constructor.
Qed.

Lemma flat_map_ext_in_keys {A B : Type} (f g : A -> list B) (l : list A) :
  (forall a, In a l -> f a = g a) -> flat_map f l = flat_map g l.
Proof.
  induction l as [|a l IH]; intros H; [reflexivity|].
  cbn [flat_map]. rewrite (H a (or_introl eq_refl)), IH; [reflexivity|].
  intros b Hb. apply H. now right.
Qed.

Lemma filter_nonempty_length {A : Type} (p : A -> bool) (l : list A) (x : A) :
  In x l -> p x = true -> 1 <= Z.of_nat (List.length (filter p l)).
Proof.
  intros Hin Hp.
  assert (H : In x (filter p l)) by (apply filter_In; auto).
  destruct (filter p l); [contradiction | simpl List.length; lia].
Qed.

Section GroupFacts.
Context {K : Type} (eqb : K -> K -> bool).
Hypothesis eqb_eq : forall x y, eqb x y = true <-> x = y.

Lemma has_key_iff {R : Type} (key : R -> option K) (k : K) (r : R) :
  has_key eqb key k r = true <-> key r = Some k.
Proof.
  unfold has_key. destruct (key r) as [k'|].
  - rewrite eqb_eq. split; congruence.
  - split; discriminate.
Qed.

Lemma has_key_present {R : Type} (key : R -> option K) (k : K) (r : R) :
  has_key eqb key k r = true -> present (key r) = true.
Proof. rewrite has_key_iff. now intros ->. Qed.

(** The groups of a duplicate-free key list that covers the present
    keys split the rows that have a key. *)
Lemma groups_partition {R : Type} (key : R -> option K) (l : list K) :
  NoDup l ->
  forall rows : list R,
    (forall r k, In r rows -> key r = Some k -> In k l) ->
    Permutation (flat_map (fun k => filter (has_key eqb key k) rows) l)
                (filter (fun r => present (key r)) rows).
Proof.
  induction 1 as [|k l Hk Hnd IH]; intros rows Hcov.
  - cbn [flat_map].
    replace (filter (fun r => present (key r)) rows) with (@nil R); [constructor|].
    symmetry. induction rows as [|r rows IHr]; [reflexivity|].
    cbn [filter]. destruct (key r) as [k|] eqn:E.
    + destruct (Hcov r k (or_introl eq_refl) E).
    + cbn [present]. apply IHr. intros r' k' Hr'. apply Hcov. now right.
  - cbn [flat_map].
    set (rest := filter (fun r => negb (has_key eqb key k r)) rows).
    assert (Hrest : forall k', In k' l ->
              filter (has_key eqb key k') rows = filter (has_key eqb key k') rest).
    { intros k' Hk'. unfold rest. rewrite filter_twice.
      apply filter_ext. intros r.
      destruct (has_key eqb key k' r) eqn:E1; [|now rewrite andb_false_r].
      destruct (has_key eqb key k r) eqn:E2; [|reflexivity].
      apply has_key_iff in E1, E2. congruence. }
    rewrite (flat_map_ext_in_keys _ _ l Hrest).
    rewrite (IH rest).
    + rewrite <- (filter_split_perm (has_key eqb key k)
                    (filter (fun r => present (key r)) rows)).
      apply Permutation_app.
      * rewrite filter_twice.
        replace (filter (has_key eqb key k) rows)
          with (filter (fun x => present (key x) && has_key eqb key k x) rows);
          [reflexivity|].
        apply filter_ext. intros r.
        destruct (has_key eqb key k r) eqn:E; [|apply andb_false_r].
        now rewrite (has_key_present _ _ _ E).
      * unfold rest. rewrite !filter_twice.
        replace (filter (fun x => negb (has_key eqb key k x) && present (key x)) rows)
          with (filter (fun x => present (key x) && negb (has_key eqb key k x)) rows);
          [reflexivity|].
        apply filter_ext. intros r. apply andb_comm.
    + intros r k' Hr Hkey. unfold rest in Hr. apply filter_In in Hr.
      destruct Hr as [Hr Hneg].
      destruct (Hcov r k' Hr Hkey) as [<- | Hin]; [|assumption].
      apply has_key_iff in Hkey. rewrite Hkey in Hneg. discriminate.
Qed.
End GroupFacts.

Section CountFacts.
Context {K : Type} (eqb : K -> K -> bool).
Hypothesis eqb_eq : forall x y, eqb x y = true <-> x = y.

Lemma occurrences_pos (k : K) (ks : list K) : In k ks -> 1 <= occurrences eqb k ks.
Proof.
  intros H. unfold occurrences.
  apply (filter_nonempty_length _ _ k H). now apply eqb_eq.
Qed.

Lemma occurrences_absent (k : K) (ks : list K) : ~ In k ks -> occurrences eqb k ks = 0.
Proof.
  intros H. unfold occurrences.
  replace (filter (eqb k) ks) with (@nil K); [reflexivity|].
  symmetry. induction ks as [|a ks IH]; [reflexivity|].
  cbn [filter]. destruct (eqb k a) eqn:E.
  - apply eqb_eq in E. subst. destruct H. now left.
  - apply IH. intros Hin. apply H. now right.
Qed.

Lemma occurrences_nonneg (k : K) (ks : list K) : 0 <= occurrences eqb k ks.
Proof. unfold occurrences. lia. Qed.

Lemma value_counts_perm (ks : list K) :
  Permutation (value_counts eqb ks)
              (map (fun k => (k, occurrences eqb k ks)) (unique eqb ks)).
Proof. apply sort_perm. Qed.

Lemma value_counts_In (ks : list K) (k : K) (c : Z) :
  In (k, c) (value_counts eqb ks) <-> In k ks /\ c = occurrences eqb k ks.
Proof.
  unfold value_counts, sort_values_desc. rewrite sort_In, in_map_iff. split.
  - intros [x [Hx Hin]]. inversion Hx; subst.
    split; [now apply (unique_In eqb eqb_eq) | reflexivity].
  - intros [Hin ->]. exists k. split; [reflexivity|].
    now apply (unique_In eqb eqb_eq).
Qed.

Lemma value_counts_keys (ks : list K) (k : K) :
  In k (map fst (value_counts eqb ks)) <-> In k ks.
Proof.
  rewrite in_map_iff. split.
  - intros [[k' c] [<- H]]. now apply value_counts_In in H.
  - intros H. exists (k, occurrences eqb k ks). split; [reflexivity|].
    now apply value_counts_In.
Qed.

Lemma value_counts_NoDup (ks : list K) : NoDup (map fst (value_counts eqb ks)).
Proof.
  apply (Permutation_NoDup (l := unique eqb ks)); [|now apply unique_NoDup].
  rewrite (Permutation_map fst (value_counts_perm ks)).
  rewrite map_map. cbn [fst]. now rewrite map_id.
Qed.

Lemma value_counts_pos (ks : list K) (k : K) (c : Z) :
  In (k, c) (value_counts eqb ks) -> 1 <= c.
Proof.
  rewrite value_counts_In. intros [H ->]. now apply occurrences_pos.
Qed.

(** The counts of [value_counts] add up to the length of the column. *)
Lemma value_counts_total (ks : list K) :
  total (map snd (value_counts eqb ks)) = Z.of_nat (List.length ks).
Proof.
  rewrite (total_perm _ _ (Permutation_map snd (value_counts_perm ks))).
  rewrite map_map. cbn [snd].
  pose proof (groups_partition eqb eqb_eq (@Some K) (unique eqb ks)
                (unique_NoDup eqb eqb_eq ks) ks) as P.
  assert (Hcov : forall r k, In r ks -> Some r = Some k -> In k (unique eqb ks)).
  { intros r k Hr [= <-]. now apply (unique_In eqb eqb_eq). }
  specialize (P Hcov). apply Permutation_length in P.
  cbn [present] in P. rewrite filter_true in P. rewrite <- P.
  clear. induction (unique eqb ks) as [|k l IH]; [reflexivity|].
  cbn [map total fold_right flat_map]. fold (total (map (fun x => occurrences eqb x ks) l)).
  rewrite length_app, Nat2Z.inj_add, <- IH. reflexivity.
Qed.

(** *** [groupby] *)

Context {R : Type} (lek : K -> K -> bool) (key : R -> option K).

Lemma dropna_In (os : list (option K)) (k : K) : In k (dropna os) <-> In (Some k) os.
Proof.
  unfold dropna. rewrite in_flat_map. split.
  - intros [[x|] [Hin Hk]]; [|destruct Hk].
    destruct Hk as [<- | []]. assumption.
  - intros H. exists (Some k). split; [assumption | now left].
Qed.

Lemma group_keys_In (rows : list R) (k : K) :
  In k (sort lek (unique eqb (dropna (map key rows))))
  <-> exists r, In r rows /\ key r = Some k.
Proof.
  rewrite sort_In, (unique_In eqb eqb_eq), dropna_In, in_map_iff.
  split; intros [r [H1 H2]]; exists r; auto.
Qed.

Lemma group_keys_NoDup (rows : list R) :
  NoDup (sort lek (unique eqb (dropna (map key rows)))).
Proof.
  apply (Permutation_NoDup (l := unique eqb (dropna (map key rows)))).
  - symmetry. apply sort_perm.
  - now apply unique_NoDup.
Qed.

Lemma groupby_keys (rows : list R) :
  map fst (groupby eqb lek key rows)
  = sort lek (unique eqb (dropna (map key rows))).
Proof. unfold groupby. rewrite map_map. cbn [fst]. apply map_id. Qed.

Lemma groupby_In (rows : list R) (k : K) (g : list R) :
  In (k, g) (groupby eqb lek key rows)
  <-> (exists r, In r rows /\ key r = Some k)
      /\ g = filter (has_key eqb key k) rows.
Proof.
  unfold groupby. rewrite in_map_iff. split.
  - intros [k' [Hk Hin]]. inversion Hk; subst.
    split; [now apply group_keys_In | reflexivity].
  - intros [Hin ->]. exists k. split; [reflexivity | now apply group_keys_In].
Qed.

Lemma groupby_nonempty (rows : list R) (k : K) (g : list R) :
  In (k, g) (groupby eqb lek key rows) -> 1 <= Z.of_nat (List.length g).
Proof.
  rewrite groupby_In. intros [[r [Hr Hk]] ->].
  apply (filter_nonempty_length _ _ r Hr). now apply has_key_iff.
Qed.

(** Put end to end, the groups are the rows that have a key. *)
Lemma groupby_partition (rows : list R) :
  Permutation (flat_map snd (groupby eqb lek key rows))
              (filter (fun r => present (key r)) rows).
Proof.
  unfold groupby. rewrite flat_map_concat_map, map_map. cbn [snd].
  rewrite <- flat_map_concat_map.
  apply (groups_partition eqb eqb_eq).
  - apply group_keys_NoDup.
  - intros r k Hr Hk. apply group_keys_In. now exists r.
Qed.
End CountFacts.

(* ================================================================== *)
(** ** Request-type classification *)
(* ================================================================== *)

Lemma labels_NoDup : NoDup labels.
Proof.
  unfold labels.
  repeat (constructor; [simpl; intuition discriminate|]).
  constructor.
Qed.

Lemma RequestType_label (x : string) : In (RequestType x) labels.
Proof.
  unfold RequestType, labels.
  destruct (String.eqb x "/aiassistant.php"); [simpl; tauto|].
  destruct (String.eqb x "/scheduledemo.php"); [simpl; tauto|].
  destruct (String.eqb x "/event.php"); [simpl; tauto|].
  destruct (isin String.eqb x ["/job.php"; "/prototype.php"]); simpl; tauto.
Qed.

Lemma RequestType_other (x : string) : ~ In x known_urls -> RequestType x = "Other".
Proof.
  unfold known_urls. cbn [In]. intros H.
  unfold RequestType, isin. cbn [existsb].
  destruct (String.eqb_spec x "/aiassistant.php"); [subst; tauto|].
  destruct (String.eqb_spec x "/scheduledemo.php"); [subst; tauto|].
  destruct (String.eqb_spec x "/event.php"); [subst; tauto|].
  destruct (String.eqb_spec x "/job.php"); [subst; tauto|].
  destruct (String.eqb_spec x "/prototype.php"); [subst; tauto|].
  reflexivity.
Qed.

(** C2.  The request type is a total function of the URL alone: every
    URL string gets exactly one of the five labels; the five known URLs
    get the labels the table of the data model lists ([/job.php] and
    [/prototype.php] share "Job Request"); every other string gets
    "Other"; two rows with the same URL get the same label. *)
Theorem RequestType_total_classification :
  (forall x : string, exists! l : string, In l labels /\ RequestType x = l) /\
  NoDup labels /\
  RequestType "/aiassistant.php" = "AI Assistant" /\
  RequestType "/scheduledemo.php" = "Scheduled Demo" /\
  RequestType "/event.php" = "Promotional Event" /\
  RequestType "/job.php" = "Job Request" /\
  RequestType "/prototype.php" = "Job Request" /\
  (forall x : string, ~ In x known_urls -> RequestType x = "Other") /\
  (forall r r' : LogRecord,
      URL r = URL r' -> RequestType (URL r) = RequestType (URL r')).
Proof.
  split.
  { intros x. exists (RequestType x). split.
    - split; [apply RequestType_label | reflexivity].
    - now intros l [_ <-]. }
  split; [exact labels_NoDup|].
  repeat (split; [reflexivity|]).
  split; [exact RequestType_other|].
  now intros r r' ->.
Qed.

(* ================================================================== *)
(** ** Demo recommendation (dashboard.py) *)
(* ================================================================== *)

(** C6.  The recommendation attached to a demo count [n]: the Webinar
    label above 1000, the Email Campaign label from 501 to 1000, the
    Translate Page label up to 500 (each label is written with its
    leading pictogram, as in the script); the four boundary counts fall
    accordingly. *)
Theorem Action_thresholds :
  forall n : Z,
    (1000 < n -> Dashboard.Action n = "💡 Webinar") /\
    (500 < n <= 1000 -> Dashboard.Action n = "📧 Email Campaign") /\
    (n <= 500 -> Dashboard.Action n = "📄 Translate Page") /\
    Dashboard.Action 500 = "📄 Translate Page" /\
    Dashboard.Action 501 = "📧 Email Campaign" /\
    Dashboard.Action 1000 = "📧 Email Campaign" /\
    Dashboard.Action 1001 = "💡 Webinar".
Proof.
  intros n. unfold Dashboard.Action.
  repeat split; try reflexivity; intros H.
  - destruct (Z.ltb_spec 1000 n); [reflexivity | lia].
  - destruct (Z.ltb_spec 1000 n); [lia|].
    destruct (Z.ltb_spec 500 n); [reflexivity | lia].
  - destruct (Z.ltb_spec 1000 n); [lia|].
    destruct (Z.ltb_spec 500 n); [lia | reflexivity].
Qed.

(* ================================================================== *)
(** ** The country filter *)
(* ================================================================== *)

Lemma filtered_In (tc : list ((string * string) * Z)) (sel : option string)
      (row : (string * string) * Z) :
  In row (filtered tc sel) <-> In row tc /\ Some (fst (fst row)) = sel.
Proof.
  unfold filtered. rewrite filter_In.
  destruct sel as [c|].
  - rewrite String.eqb_eq. split; intros [H1 H2]; split; congruence.
  - split; intros [H1 H2]; discriminate.
Qed.

Lemma filtered_none (tc : list ((string * string) * Z)) (sel : option string) :
  (forall row, In row tc -> Some (fst (fst row)) <> sel) -> filtered tc sel = [].
Proof.
  intros H. destruct (filtered tc sel) as [|row l] eqn:E; [reflexivity|].
  assert (Hin : In row (filtered tc sel)) by (rewrite E; now left).
  apply filtered_In in Hin. destruct Hin as [H1 H2]. now destruct (H row H1).
Qed.

(** C9.  In both dashboards the callback hands back the globals it was
    given, unchanged, for every selection; the rows it draws are exactly
    the rows of the cross-tab whose Country is the selection; a selection
    that matches no row gives a figure with no rows (no error); and a
    second call on the globals left by the first draws the same figure. *)
Theorem update_request_type_chart_reads_only :
  forall (g : Globals) (selected_country : option string),
    let main := Main.update_request_type_chart selected_country g in
    let dash := Dashboard.update_request_type_chart selected_country g in
    snd main = g /\ snd dash = g /\
    fig_rows (fst main) = fig_rows (fst dash) /\
    (forall row, In row (fig_rows (fst main))
                 <-> In row (g_type_country g)
                     /\ Some (fst (fst row)) = selected_country) /\
    ((forall row, In row (g_type_country g)
                  -> Some (fst (fst row)) <> selected_country)
     -> fig_rows (fst main) = []) /\
    Main.update_request_type_chart selected_country (snd main) = main /\
    Dashboard.update_request_type_chart selected_country (snd dash) = dash.
Proof.
  intros g sel main dash. subst main dash.
  unfold Main.update_request_type_chart, Dashboard.update_request_type_chart.
  cbn [fst snd fig_rows].
  split; [reflexivity|]. split; [reflexivity|]. split; [reflexivity|].
  split; [intros row; apply filtered_In|].
  split; [apply filtered_none|].
  split; reflexivity.
Qed.

(* ================================================================== *)
(** ** The metrics *)
(* ================================================================== *)

Lemma positive_revenue_none (df : DataFrame) :
  (forall r, In r df -> gt0 (Revenue r) = false) -> positive_revenue df = [].
Proof.
  induction df as [|r df IH]; intros H; [reflexivity|].
  unfold positive_revenue in *. cbn [filter].
  rewrite (H r (or_introl eq_refl)). apply IH.
  intros r' Hr'. apply H. now right.
Qed.

(** C4, as the scripts behave.  On a table without a positive-revenue
    row [avg_sale_value] is the float [NaN] and nothing is raised for it,
    but [top_product] raises [ValueError] ([idxmax] of an empty series),
    so the metrics block as a whole ends in that exception. *)
Theorem no_sale_metrics :
  forall df : DataFrame,
    (forall r, In r df -> gt0 (Revenue r) = false) ->
    avg_sale_value df = NaN /\
    top_product df = Raise ValueError /\
    metrics df = Raise ValueError.
Proof.
  intros df H. unfold metrics, avg_sale_value, top_product.
  rewrite (positive_revenue_none df H). repeat split.
Qed.

Lemma no_sale_metrics_witness :
  avg_sale_value no_sale_rows = NaN /\
  top_product no_sale_rows = Raise ValueError /\
  metrics no_sale_rows = Raise ValueError.
Proof.
  apply (no_sale_metrics no_sale_rows).
  intros r [<- | [<- | []]]; reflexivity.
Defined.

(** C4 as stated fails: the sample log has no positive-revenue row, and
    neither [top_product] nor the metrics block returns a value on it. *)
Lemma no_sale_top_product_raises :
  positive_revenue no_sale_rows = [] /\
  (forall p : string, top_product no_sale_rows <> Ok p) /\
  (forall m : Metrics, metrics no_sale_rows <> Ok m).
Proof.
  split; [reflexivity|]. split; intros x; discriminate.
Qed.

(* ================================================================== *)
(** ** Job-page distribution *)
(* ================================================================== *)

Lemma df_jobs_rows_in (df : DataFrame) : Dashboard.df_jobs df = rows_in known_urls df.
Proof.
  unfold Dashboard.df_jobs, rows_in. apply filter_ext. intros r.
  destruct (in_dec string_dec (URL r) known_urls) as [H|H].
  - now apply (isin_In String.eqb String.eqb_eq).
  - destruct (isin String.eqb (URL r) Dashboard.job_pages) eqn:E; [|reflexivity].
    apply (isin_In String.eqb String.eqb_eq) in E. contradiction.
Qed.

Lemma occurrences_URL (u : string) (p : LogRecord -> bool) (df : DataFrame) :
  (forall r, URL r = u -> p r = true) ->
  occurrences String.eqb u (map URL (filter p df)) = visits u df.
Proof.
  intros H. unfold occurrences, visits.
  rewrite filter_map_swap, length_map, filter_twice. do 2 f_equal.
  apply filter_ext. intros r. rewrite String.eqb_sym.
  destruct (String.eqb_spec (URL r) u) as [E|E]; [|apply andb_false_r].
  now rewrite (H r E).
Qed.

(** In dashboard.py and ai_solutions_sales.py the job-page counts cover
    the five URLs: one entry per URL that occurs, each count the number
    of rows with exactly that URL, and the counts add up to the number
    of rows whose URL is among the five. *)
Theorem job_counts_five_urls :
  forall df : DataFrame,
    Batch.job_counts df = Dashboard.job_counts df /\
    total (map snd (Dashboard.job_counts df))
    = Z.of_nat (List.length (rows_in known_urls df)) /\
    NoDup (map fst (Dashboard.job_counts df)) /\
    (forall u c, In (u, c) (Dashboard.job_counts df)
                 -> In u known_urls /\ 1 <= c /\ c = visits u df).
Proof.
  intros df. split; [reflexivity|].
  unfold Dashboard.job_counts. split; [|split].
  - rewrite (value_counts_total String.eqb String.eqb_eq), length_map.
    now rewrite df_jobs_rows_in.
  - apply (value_counts_NoDup String.eqb String.eqb_eq).
  - intros u c H.
    pose proof (value_counts_pos String.eqb String.eqb_eq _ _ _ H) as Hpos.
    apply (value_counts_In String.eqb String.eqb_eq) in H. destruct H as [Hin ->].
    apply in_map_iff in Hin. destruct Hin as [r [<- Hr]].
    unfold Dashboard.df_jobs in Hr. apply filter_In in Hr. destruct Hr as [_ Hr].
    split; [now apply (isin_In String.eqb String.eqb_eq)|].
    split; [assumption|].
    apply occurrences_URL. intros r' E. now rewrite E.
Qed.

Lemma RequestType_job (x : string) :
  String.eqb (RequestType x) "Job Request"
  = isin String.eqb x ["/job.php"; "/prototype.php"].
Proof.
  unfold RequestType.
  destruct (String.eqb_spec x "/aiassistant.php") as [->|_]; [reflexivity|].
  destruct (String.eqb_spec x "/scheduledemo.php") as [->|_]; [reflexivity|].
  destruct (String.eqb_spec x "/event.php") as [->|_]; [reflexivity|].
  now destruct (isin String.eqb x ["/job.php"; "/prototype.php"]).
Qed.

(** What main.py counts instead: the rows of [/job.php] and
    [/prototype.php]. *)
Lemma Main_job_counts_two_urls (df : DataFrame) :
  total (map snd (Main.job_counts df))
  = Z.of_nat (List.length (rows_in ["/job.php"; "/prototype.php"] df)).
Proof.
  unfold Main.job_counts.
  rewrite (value_counts_total String.eqb String.eqb_eq), length_map.
  do 2 f_equal. unfold of_type, rows_in. apply filter_ext. intros r.
  rewrite RequestType_job.
  destruct (in_dec string_dec (URL r) ["/job.php"; "/prototype.php"]) as [H|H].
  - now apply (isin_In String.eqb String.eqb_eq).
  - destruct (isin String.eqb (URL r) ["/job.php"; "/prototype.php"]) eqn:E;
      [|reflexivity].
    apply (isin_In String.eqb String.eqb_eq) in E. contradiction.
Qed.

(** C1 on main.py.  The job chart of main.py is drawn from the rows
    classified "Job Request", that is [/job.php] and [/prototype.php]
    only.  On a log with a sale on [/job.php] and a visit of
    [/event.php] the metrics of line 22 are computed, both rows have a
    URL of the five job pages, and the job table of main.py counts one
    of them where the other two scripts count both. *)
Theorem Main_job_counts_misses_event_page :
  top_product job_and_event = Ok "Widget" /\
  (exists m, metrics job_and_event = Ok m) /\
  rows_in known_urls job_and_event = job_and_event /\
  Z.of_nat (List.length (rows_in known_urls job_and_event)) = 2 /\
  Main.job_counts job_and_event = [("/job.php", 1)] /\
  total (map snd (Main.job_counts job_and_event)) = 1 /\
  Dashboard.job_counts job_and_event = [("/job.php", 1); ("/event.php", 1)] /\
  Batch.job_counts job_and_event = [("/job.php", 1); ("/event.php", 1)].
Proof.
  split; [reflexivity|]. split; [eexists; reflexivity|]. repeat split.
Qed.

(* ================================================================== *)
(** ** Keys and groups of the aggregate tables *)
(* ================================================================== *)

Lemma pair_eqb_eq (a b : string * string) : pair_eqb a b = true <-> a = b.
Proof.
  unfold pair_eqb. destruct a as [a1 a2], b as [b1 b2]. cbn [fst snd].
  rewrite andb_true_iff, !String.eqb_eq. split.
  - now intros [-> ->].
  - intros [= -> ->]. now split.
Qed.

Section TableFacts.
Context {K : Type} (eqb : K -> K -> bool).
Hypothesis eqb_eq : forall x y, eqb x y = true <-> x = y.

Lemma value_counts_exact (ks : list K) : counts_exactly eqb ks (value_counts eqb ks).
Proof.
  split; [now apply value_counts_NoDup|]. split.
  - intros k. symmetry. now apply value_counts_keys.
  - intros k c H. split.
    + now apply (value_counts_In eqb eqb_eq) in H.
    + now apply (value_counts_pos eqb eqb_eq) in H.
Qed.

(** Reordering a table keeps it exact. *)
Lemma counts_exactly_perm (ks : list K) (t t' : list (K * Z)) :
  Permutation t t' -> counts_exactly eqb ks t -> counts_exactly eqb ks t'.
Proof.
  intros P [Hnd [Hkeys Hc]]. split; [|split].
  - apply (Permutation_NoDup (Permutation_map fst P) Hnd).
  - intros k. rewrite Hkeys. split; apply Permutation_in;
      [|symmetry]; apply (Permutation_map fst P).
  - intros k c H. apply Hc. apply (Permutation_in _ (Permutation_sym P) H).
Qed.

(** [groupby(...).size()] on a key that is never missing. *)
Lemma size_groupby_exact {R : Type} (lek : K -> K -> bool) (f : R -> K)
      (rows : list R) :
  counts_exactly eqb (map f rows)
                 (size (groupby eqb lek (fun r => Some (f r)) rows)).
Proof.
  assert (Hfst : map fst (size (groupby eqb lek (fun r => Some (f r)) rows))
                 = sort lek (unique eqb (dropna (map (fun r => Some (f r)) rows)))).
  { unfold size. rewrite map_map. cbn [fst].
    apply (groupby_keys eqb lek (fun r => Some (f r))). }
  split; [|split].
  - rewrite Hfst. now apply group_keys_NoDup.
  - intros k. rewrite Hfst, (group_keys_In eqb eqb_eq), in_map_iff.
    split; intros [r [H1 H2]]; exists r.
    + split; [assumption | now rewrite H1].
    + split; [congruence | assumption].
  - intros k c H. unfold size in H. apply in_map_iff in H.
    destruct H as [[k' g] [E H]]. cbn [fst snd] in E. inversion E; subst.
    split.
    + apply (groupby_In eqb eqb_eq) in H. destruct H as [_ ->].
      unfold occurrences. now rewrite filter_map_swap, length_map.
    + now apply (groupby_nonempty eqb eqb_eq lek _ _ _ _ H).
Qed.

End TableFacts.



Lemma positive_revenue_In (df : DataFrame) (r : LogRecord) :
  In r (positive_revenue df) <-> In r df /\ gt0 (Revenue r) = true.
Proof. apply filter_In. Qed.


Section Lookup.
Let look := lookup String.eqb String.eqb.

Lemma lookup_Some (k : string * string) (s : list ((string * string) * Z)) (v : Z) :
  look k s = Some v -> In (k, v) s.
Proof.
  subst look. induction s as [|[k' v'] s IH]; [discriminate|].
  cbn [lookup]. fold (pair_eqb k k').
  destruct (pair_eqb k k') eqn:E.
  - apply pair_eqb_eq in E. intros [= ->]. left. now subst.
  - intros H. right. now apply IH.
Qed.

Lemma lookup_None (k : string * string) (s : list ((string * string) * Z)) :
  look k s = None -> ~ In k (map fst s).
Proof.
  subst look. induction s as [|[k' v'] s IH]; [intros _ []|].
  cbn [lookup]. fold (pair_eqb k k').
  destruct (pair_eqb k k') eqn:E; [discriminate|].
  intros H [Hk | Hk].
  - cbn [fst] in Hk. subst. rewrite (proj2 (pair_eqb_eq k k) eq_refl) in E.
    discriminate.
  - now apply IH.
Qed.
End Lookup.








(* ================================================================== *)
(** ** Averages of groups *)
(* ================================================================== *)

(** Groups that all average strictly below [a] total strictly less than
    [a] times their joint size. *)
Lemma groups_below_average (a : Q) (gs : list (Q * Z)) :
  gs <> [] ->
  (forall s n, In (s, n) gs -> 1 <= n /\ (s / inject_Z n < a)%Q) ->
  (Qtotal (map fst gs) < a * inject_Z (total (map snd gs)))%Q.
Proof.
  assert (step : forall s n, 1 <= n -> (s / inject_Z n < a)%Q -> (s < a * inject_Z n)%Q).
  { intros s n Hn Hlt.
    assert (Hpos : (0 < inject_Z n)%Q).
    { change 0%Q with (inject_Z 0). rewrite <- Zlt_Qlt. lia. }
    assert (E : (s == s / inject_Z n * inject_Z n)%Q).
    { field. intros E0. rewrite E0 in Hpos. now apply Qlt_irrefl in Hpos. }
    rewrite E. now apply Qmult_lt_compat_r. }
  induction gs as [|[s n] gs IH]; intros Hne H; [now destruct Hne|].
  cbn [map fst snd Qtotal total fold_right].
  fold (Qtotal (map fst gs)). fold (total (map snd gs)).
  rewrite inject_Z_plus.
  destruct (H s n (or_introl eq_refl)) as [Hn Hlt].
  pose proof (step s n Hn Hlt) as Hs.
  destruct gs as [|g gs'].
  - cbn [map Qtotal total fold_right]. change (inject_Z 0) with 0%Q. lra.
  - assert (Hrest : (Qtotal (map fst (g :: gs'))
                     < a * inject_Z (total (map snd (g :: gs'))))%Q).
    { apply IH; [discriminate|]. intros s' n' Hin. apply H. now right. }
    lra.
Qed.

(* ================================================================== *)
(** ** The top product *)
(* ================================================================== *)

Section IdxmaxFacts.
Context {K : Type}.

Let pick (best y : K * Z) : K * Z := if snd best <? snd y then y else best.

(** Scanning on from a best-so-far keeps it the first maximum. *)
Lemma scan_first_max (rest : list (K * Z)) :
  forall (l1 : list (K * Z)) (b : K * Z) (l2 : list (K * Z)),
    (forall e, In e l1 -> snd e < snd b) ->
    (forall e, In e l2 -> snd e <= snd b) ->
    exists l1' l2',
      l1 ++ b :: l2 ++ rest = l1' ++ fold_left pick rest b :: l2' /\
      (forall e, In e l1' -> snd e < snd (fold_left pick rest b)) /\
      (forall e, In e l2' -> snd e <= snd (fold_left pick rest b)).
Proof.
  induction rest as [|y rest IH]; intros l1 b l2 H1 H2.
  - exists l1, l2. rewrite app_nil_r. auto.
  - cbn [fold_left]. unfold pick at 2 4 6.
    destruct (Z.ltb_spec (snd b) (snd y)) as [Hlt|Hge].
    + destruct (IH (l1 ++ b :: l2) y []) as [l1' [l2' [E [A B]]]].
      * intros e He. apply in_app_or in He.
        destruct He as [He | [<- | He]]; [specialize (H1 e He) | | specialize (H2 e He)];
          lia.
      * intros e [].
      * exists l1', l2'. split; [|auto].
        rewrite <- E. rewrite <- !app_assoc. reflexivity.
    + destruct (IH l1 b (l2 ++ [y])) as [l1' [l2' [E [A B]]]].
      * assumption.
      * intros e He. apply in_app_or in He.
        destruct He as [He | [<- | []]]; [now apply H2 | assumption].
      * exists l1', l2'. split; [|auto].
        rewrite <- E. rewrite <- !app_assoc. reflexivity.
Qed.

Lemma idxmax_first_max (s : list (K * Z)) (k : K) :
  idxmax s = Ok k ->
  exists c l1 l2,
    s = l1 ++ (k, c) :: l2 /\
    (forall e, In e l1 -> snd e < c) /\
    (forall e, In e l2 -> snd e <= c).
Proof.
  destruct s as [|x rest]; [discriminate|].
  cbn [idxmax]. intros [= <-].
  destruct (scan_first_max rest [] x []) as [l1 [l2 [E [A B]]]];
    [intros e [] | intros e [] |].
  fold pick. exists (snd (fold_left pick rest x)), l1, l2.
  rewrite <- surjective_pairing. auto.
Qed.

Lemma idxmax_nonempty (s : list (K * Z)) :
  s <> [] -> exists k, idxmax s = Ok k.
Proof.
  destruct s as [|x rest]; [now intros H | intros _].
  eexists. reflexivity.
Qed.
End IdxmaxFacts.

Lemma filter_none {A : Type} (q : A -> bool) (l : list A) :
  (forall x, In x l -> q x = false) -> filter q l = [].
Proof.
  induction l as [|a l IH]; intros H; [reflexivity|].
  cbn [filter]. rewrite (H a (or_introl eq_refl)). apply IH.
  intros x Hx. apply H. now right.
Qed.

Lemma filter_head_split {A : Type} (q : A -> bool) (l : list A) (x : A) (t : list A) :
  filter q l = x :: t ->
  exists l1 l2, l = l1 ++ x :: l2 /\ (forall y, In y l1 -> q y = false).
Proof.
  induction l as [|a l IH]; [discriminate|].
  cbn [filter]. destruct (q a) eqn:E.
  - intros [= -> _]. exists [], l. split; [reflexivity | intros y []].
  - intros H. destruct (IH H) as [l1 [l2 [-> Hl1]]].
    exists (a :: l1), l2. split; [reflexivity|].
    intros y [<- | Hy]; auto.
Qed.

Section TopFacts.
Context {K : Type} (eqb : K -> K -> bool).
Hypothesis eqb_eq : forall x y, eqb x y = true <-> x = y.

Lemma unique_head (ks : list K) (k : K) (t : list K) :
  unique eqb ks = k :: t -> exists ks', ks = k :: ks'.
Proof.
  destruct ks as [|a ks]; [discriminate|].
  cbn [unique]. intros [= -> _]. now exists ks.
Qed.

(** The label [idxmax] picks from [value_counts]: a key of maximal
    count, and the first of the column among the keys of that count. *)
Lemma idxmax_value_counts (ks : list K) (k : K) :
  idxmax (value_counts eqb ks) = Ok k ->
  In k ks /\
  (forall k', occurrences eqb k' ks <= occurrences eqb k ks) /\
  exists before after,
    ks = before ++ k :: after /\
    forall k', In k' before -> occurrences eqb k' ks < occurrences eqb k ks.
Proof.
  intros H. apply idxmax_first_max in H.
  destruct H as [c [l1 [l2 [E [H1 H2]]]]].
  assert (Hin : In (k, c) (value_counts eqb ks))
    by (rewrite E; apply in_or_app; right; now left).
  apply (value_counts_In eqb eqb_eq) in Hin. destruct Hin as [Hk Hc].
  assert (Hmax : forall k', occurrences eqb k' ks <= c).
  { intros k'.
    assert (Hdec : In k' ks \/ ~ In k' ks).
    { destruct (isin eqb k' ks) eqn:Ei.
      - left. now apply (isin_In eqb eqb_eq).
      - right. intros Hi. apply (isin_In eqb eqb_eq) in Hi. congruence. }
    destruct Hdec as [Hk'|Hk'].
    - assert (Hin' : In (k', occurrences eqb k' ks) (value_counts eqb ks))
        by now apply (value_counts_In eqb eqb_eq).
      rewrite E in Hin'. apply in_app_or in Hin'.
      destruct Hin' as [Hin' | [Hin' | Hin']].
      + specialize (H1 _ Hin'). cbn [snd] in H1. lia.
      + inversion Hin'. lia.
      + now specialize (H2 _ Hin').
    - rewrite (occurrences_absent eqb eqb_eq _ _ Hk').
      pose proof (occurrences_nonneg eqb k ks). lia. }
  split; [assumption|]. split; [now rewrite <- Hc|].
  set (tied := fun e : K * Z => snd e =? c).
  assert (Hs : filter tied (value_counts eqb ks) = (k, c) :: filter tied l2).
  { rewrite E, filter_app.
    replace (filter tied l1) with (@nil (K * Z)).
    - cbn [app filter]. unfold tied at 1. cbn [snd]. now rewrite Z.eqb_refl.
    - symmetry. apply filter_none.
      intros e He. unfold tied. specialize (H1 e He).
      destruct (Z.eqb_spec (snd e) c); [lia | reflexivity]. }
  unfold value_counts, sort_values_desc in Hs.
  rewrite (sort_filter _ tied) in Hs.
  - rewrite filter_map_swap in Hs. unfold tied in Hs. cbn [snd] in Hs.
    rewrite (filter_unique eqb eqb_eq) in Hs.
    destruct (unique eqb (filter (fun a => occurrences eqb a ks =? c) ks))
      as [|k0 t] eqn:Eu; [discriminate|].
    cbn [map] in Hs. injection Hs as Hk0 _ _. subst k0.
    apply unique_head in Eu. destruct Eu as [ks' Eks].
    apply filter_head_split in Eks. destruct Eks as [before [after [-> Hb]]].
    exists before, after. split; [reflexivity|].
    intros k' Hk'. specialize (Hb k' Hk'). specialize (Hmax k').
    destruct (Z.eqb_spec (occurrences eqb k' (before ++ k :: after)) c); [discriminate|].
    lia.
  - intros a b Ha Hb. unfold tied in Ha, Hb.
    apply Z.eqb_eq in Ha, Hb. apply Z.leb_le. lia.
Qed.
End TopFacts.

Lemma occurrences_dropna (key : LogRecord -> option string) (p : string)
      (rows : list LogRecord) :
  occurrences String.eqb p (dropna (map key rows))
  = Z.of_nat (List.length (filter (has_key String.eqb key p) rows)).
Proof.
  unfold occurrences. f_equal.
  induction rows as [|r rows IH]; [reflexivity|].
  cbn [map dropna flat_map filter]. fold (dropna (map key rows)).
  unfold has_key at 1. destruct (key r) as [k|]; [|exact IH].
  cbn [app filter]. destruct (String.eqb p k); cbn [List.length]; now rewrite IH.
Qed.

Lemma sold_count (df : DataFrame) (p : string) :
  occurrences String.eqb p (sold_products df) = sales_count df p.
Proof.
  unfold sold_products, sales_count. rewrite occurrences_dropna.
  unfold positive_revenue. now rewrite filter_twice.
Qed.

Lemma sold_products_In (df : DataFrame) (p : string) :
  In p (sold_products df)
  <-> exists r, In r df /\ gt0 (Revenue r) = true /\ Product r = Some p.
Proof.
  unfold sold_products.
  rewrite (dropna_In (K := string)), in_map_iff. split.
  - intros [r [E Hr]]. apply positive_revenue_In in Hr. exists r. tauto.
  - intros [r [Hr [Hpos E]]]. exists r. split; [assumption|].
    now apply positive_revenue_In.
Qed.

(** C5, as the scripts behave.  When some positive-revenue row names a
    product, [top_product] returns a product [p] of such a row whose
    number of positive-revenue rows is the highest; among the products
    that share this highest count it is the one met first in the table:
    every product sold in a row before the first sale of [p] has
    strictly fewer sales. *)
Theorem top_product_most_sold :
  forall df : DataFrame,
    (exists r, In r df /\ gt0 (Revenue r) = true /\ Product r <> None) ->
    exists p,
      top_product df = Ok p /\
      (exists r, In r df /\ gt0 (Revenue r) = true /\ Product r = Some p) /\
      (forall p', sales_count df p' <= sales_count df p) /\
      exists before after,
        sold_products df = before ++ p :: after /\
        forall p', In p' before -> sales_count df p' < sales_count df p.
Proof.
  intros df [r [Hr [Hpos Hname]]].
  destruct (Product r) as [p0|] eqn:E0; [clear Hname | now destruct Hname].
  assert (Hsold : In p0 (sold_products df))
    by (apply sold_products_In; exists r; auto).
  assert (Hne : value_counts String.eqb (sold_products df) <> []).
  { intros E.
    assert (H : In (p0, occurrences String.eqb p0 (sold_products df))
                   (value_counts String.eqb (sold_products df)))
      by now apply (value_counts_In String.eqb String.eqb_eq).
    rewrite E in H. destruct H. }
  destruct (idxmax_nonempty _ Hne) as [p Hp].
  exists p. split; [exact Hp|].
  apply (idxmax_value_counts String.eqb String.eqb_eq) in Hp.
  destruct Hp as [Hin [Hmax [before [after [Esplit Hb]]]]].
  split; [now apply sold_products_In|].
  split.
  - intros p'. rewrite <- !sold_count. apply Hmax.
  - exists before, after. split; [assumption|].
    intros p' Hp'. rewrite <- !sold_count. now apply Hb.
Qed.

Lemma top_product_most_sold_witness :
  exists p,
    top_product tied_sales = Ok p /\
    (exists r, In r tied_sales /\ gt0 (Revenue r) = true /\ Product r = Some p) /\
    (forall p', sales_count tied_sales p' <= sales_count tied_sales p) /\
    exists before after,
      sold_products tied_sales = before ++ p :: after /\
      forall p', In p' before -> sales_count tied_sales p' < sales_count tied_sales p.
Proof.
  apply (top_product_most_sold tied_sales).
  eexists. split; [left; reflexivity|]. split; [reflexivity | discriminate].
Defined.

(** C5 as stated fails twice.  "Zeta" and "Alpha" are sold once each and
    "Alpha" sorts first, yet [top_product] is "Zeta", the product of the
    earlier row; and a table whose only sale has an empty product field
    has a positive-revenue row but no top product: [idxmax] raises. *)
Lemma top_product_counterexample :
  top_product tied_sales = Ok "Zeta" /\
  sales_count tied_sales "Zeta" = 1 /\
  sales_count tied_sales "Alpha" = 1 /\
  String.ltb "Alpha" "Zeta" = true /\
  positive_revenue unnamed_sale = unnamed_sale /\
  top_product unnamed_sale = Raise ValueError.
Proof. repeat split. Qed.

(* ================================================================== *)
(** ** The end-to-end example *)
(* ================================================================== *)

(** The three-row example: hours, request types, average sale value, top
    product and status codes come out as expected. *)
Example end_to_end_example :
  requests_per_hour example_rows = [(10, 2); (23, 1)] /\
  map (fun r => RequestType (URL r)) example_rows
  = ["AI Assistant"; "Scheduled Demo"; "Other"] /\
  ge (avg_sale_value example_rows) (Fin 100) = true /\
  ge (Fin 100) (avg_sale_value example_rows) = true /\
  top_product example_rows = Ok "Widget" /\
  status_counts example_rows = [(200, 2); (404, 1)].
Proof. repeat split. Qed.

(* ================================================================== *)
(** ** Order of the tables *)
(* ================================================================== *)

Section SortedFacts.
Context {A : Type} (le : A -> A -> bool).
Hypothesis le_total : forall a b, le a b = true \/ le b a = true.

Lemma insert_HdRel (y x : A) (l : list A) :
  HdRel (fun a b => le a b = true) y l -> le y x = true ->
  HdRel (fun a b => le a b = true) y (insert le x l).
Proof.
  intros H Hyx. destruct l as [|z l]; cbn [insert]; [now constructor|].
  destruct (le x z); constructor; [assumption | now inversion H].
Qed.

Lemma insert_sorted (x : A) (l : list A) :
  Sorted (fun a b => le a b = true) l ->
  Sorted (fun a b => le a b = true) (insert le x l).
Proof.
  induction l as [|y l IH]; intros H; cbn [insert].
  - repeat constructor.
  - destruct (le x y) eqn:E.
    + constructor; [assumption | now constructor].
    + inversion H as [|? ? Hs Hh]; subst. constructor; [now apply IH|].
      apply insert_HdRel; [assumption|].
      destruct (le_total x y) as [H'|H']; [congruence | assumption].
Qed.

Lemma sort_sorted (l : list A) : Sorted (fun a b => le a b = true) (sort le l).
Proof.
  induction l as [|x l IH]; [constructor|].
  cbn [sort fold_right]. now apply insert_sorted.
Qed.

Hypothesis le_trans : forall a b c, le a b = true -> le b c = true -> le a c = true.

Lemma sort_strongly_sorted (l : list A) :
  StronglySorted (fun a b => le a b = true) (sort le l).
Proof.
  apply Sorted_StronglySorted; [|apply sort_sorted].
  intros a b c. apply le_trans.
Qed.
End SortedFacts.

Lemma StronglySorted_impl {A : Type} (R R' : A -> A -> Prop) (l : list A) :
  (forall a b, In a l -> In b l -> R a b -> R' a b) ->
  StronglySorted R l -> StronglySorted R' l.
Proof.
  intros H S. induction S as [|a l S IH F]; constructor.
  - apply IH. intros x y Hx Hy. apply H; now right.
  - rewrite Forall_forall in *. intros b Hb.
    apply H; [now left | now right | now apply F].
Qed.

(** In a sorted list without repeated keys the order is strict. *)
Lemma StronglySorted_strict {A B : Type} (f : A -> B) (R R' : A -> A -> Prop)
      (l : list A) :
  (forall a b, R a b -> f a <> f b -> R' a b) ->
  NoDup (map f l) -> StronglySorted R l -> StronglySorted R' l.
Proof.
  intros H Hnd S. induction S as [|a l S IH F]; constructor.
  - apply IH. now inversion Hnd.
  - rewrite Forall_forall in *. intros b Hb. apply H; [now apply F|].
    cbn [map] in Hnd. inversion Hnd as [|? ? Hnot _]; subst.
    intros E. apply Hnot. rewrite E. now apply in_map.
Qed.

Lemma value_counts_desc {K : Type} (eqb : K -> K -> bool) (ks : list K) :
  StronglySorted count_desc (value_counts eqb ks).
Proof.
  unfold value_counts, sort_values_desc.
  apply (StronglySorted_impl (fun a b : K * Z => (snd b <=? snd a) = true)).
  - intros a b _ _ H. unfold count_desc. now apply Z.leb_le.
  - apply sort_strongly_sorted.
    + intros a b. rewrite !Z.leb_le. lia.
    + intros a b c. rewrite !Z.leb_le. lia.
Qed.

Lemma string_leb_trans (a b c : string) :
  String.leb a b = true -> String.leb b c = true -> String.leb a c = true.
Proof.
  unfold String.leb.
  destruct (String.compare a b) eqn:Eab; [|  |discriminate]; intros _.
  - apply String.compare_eq_iff in Eab. now subst.
  - destruct (String.compare b c) eqn:Ebc; [|  |discriminate]; intros _.
    + apply String.compare_eq_iff in Ebc. subst. now rewrite Eab.
    + apply OrderedTypeEx.String_as_OT.cmp_lt in Eab, Ebc.
      pose proof (OrderedTypeEx.String_as_OT.lt_trans _ _ _ Eab Ebc) as H.
      apply OrderedTypeEx.String_as_OT.cmp_lt in H.
      unfold OrderedTypeEx.String_as_OT.cmp in H. now rewrite H.
Qed.

Lemma string_leb_neq_lt (a b : string) :
  String.leb a b = true -> a <> b -> string_lt a b.
Proof.
  unfold String.leb, string_lt, String.ltb.
  destruct (String.compare a b) eqn:E; [|reflexivity|discriminate].
  apply String.compare_eq_iff in E. intros _ H. now destruct H.
Qed.

(** The sorted distinct values of a string column: strictly ascending. *)
Lemma sorted_unique_strings (ks : list string) :
  StronglySorted string_lt (sort String.leb (unique String.eqb ks)).
Proof.
  apply (StronglySorted_strict (fun x => x) (fun a b => String.leb a b = true)).
  - intros a b. apply string_leb_neq_lt.
  - rewrite map_id.
    apply (Permutation_NoDup (l := unique String.eqb ks));
      [symmetry; apply sort_perm | apply (unique_NoDup String.eqb String.eqb_eq)].
  - apply sort_strongly_sorted; [apply String.leb_total | apply string_leb_trans].
Qed.

Lemma StronglySorted_map {A B : Type} (f : A -> B) (R : B -> B -> Prop) (l : list A) :
  StronglySorted R (map f l) <-> StronglySorted (fun a b => R (f a) (f b)) l.
Proof.
  induction l as [|a l IH]; cbn [map].
  - split; constructor.
  - split; intros H; inversion H; subst; constructor;
      try (now apply IH); rewrite Forall_forall in *.
    + intros b Hb. match goal with F : forall x, In x (map f l) -> _ |- _ =>
        apply F end. now apply in_map.
    + intros b Hb. apply in_map_iff in Hb. destruct Hb as [x [<- Hx]]. auto.
Qed.

Section TotalFacts.
Context {K : Type} (eqb : K -> K -> bool).
Hypothesis eqb_eq : forall x y, eqb x y = true <-> x = y.

Lemma total_occurrences (l ks : list K) :
  NoDup l -> (forall k, In k ks -> In k l) ->
  total (map (fun k => occurrences eqb k ks) l) = Z.of_nat (List.length ks).
Proof.
  intros Hnd Hcov.
  pose proof (groups_partition eqb eqb_eq (@Some K) l Hnd ks) as P.
  assert (Hc : forall r k, In r ks -> Some r = Some k -> In k l)
    by (intros r k Hr [= <-]; auto).
  specialize (P Hc). apply Permutation_length in P.
  cbn [present] in P. rewrite filter_true in P. rewrite <- P.
  clear. induction l as [|k l IH]; [reflexivity|].
  cbn [map total fold_right flat_map].
  fold (total (map (fun x => occurrences eqb x ks) l)).
  rewrite length_app, Nat2Z.inj_add, <- IH. reflexivity.
Qed.

(** The counts of an exact table add up to the length of its column. *)
Lemma counts_exactly_total (ks : list K) (t : list (K * Z)) :
  counts_exactly eqb ks t -> total (map snd t) = Z.of_nat (List.length ks).
Proof.
  intros [Hnd [Hk Hc]].
  rewrite <- (total_occurrences (map fst t) ks Hnd (fun k => proj1 (Hk k))).
  rewrite map_map. f_equal. apply map_ext_in.
  intros [k c] Hin. cbn [fst snd]. now apply Hc.
Qed.

Lemma counts_exactly_In (ks : list K) (t : list (K * Z)) (k : K) (c : Z) :
  counts_exactly eqb ks t ->
  (In (k, c) t <-> In k ks /\ c = occurrences eqb k ks).
Proof.
  intros [Hnd [Hk Hc]]. split.
  - intros H. split; [|now apply Hc].
    apply Hk. apply in_map_iff. now exists (k, c).
  - intros [Hin ->]. apply Hk in Hin. apply in_map_iff in Hin.
    destruct Hin as [[k' c'] [E Hin]]. cbn [fst] in E. subst k'.
    now rewrite <- (proj1 (Hc k c' Hin)).
Qed.

(** Cutting an exact table down to the keys of a class gives the exact
    table of the column cut down to that class. *)
Lemma counts_exactly_filter (p : K -> bool) (ks : list K) (t : list (K * Z)) :
  counts_exactly eqb ks t ->
  counts_exactly eqb (filter p ks) (filter (fun e => p (fst e)) t).
Proof.
  intros [Hnd [Hk Hc]]. split; [|split].
  - rewrite <- filter_map_swap. now apply NoDup_filter.
  - intros k. rewrite <- filter_map_swap, !filter_In, Hk. tauto.
  - intros k c H. apply filter_In in H. cbn [fst] in H. destruct H as [Hin Hp].
    destruct (Hc k c Hin) as [-> Hpos]. split; [|assumption].
    unfold occurrences. rewrite filter_twice. do 2 f_equal.
    apply filter_ext. intros x.
    destruct (eqb k x) eqn:E; [|symmetry; apply andb_false_r].
    apply eqb_eq in E. subst. now rewrite Hp.
Qed.
End TotalFacts.

Lemma type_country_exact (df : DataFrame) :
  counts_exactly pair_eqb (type_pairs df) (type_country df).
Proof. apply (size_groupby_exact pair_eqb pair_eqb_eq). Qed.

(** Every [value_counts] table of the three scripts lists its rows from
    the most frequent key down: no row has a larger count than a row
    above it. *)
Theorem counts_tables_most_frequent_first :
  forall df : DataFrame,
    StronglySorted count_desc (Main.job_counts df) /\
    StronglySorted count_desc (Dashboard.job_counts df) /\
    StronglySorted count_desc (Batch.job_counts df) /\
    StronglySorted count_desc (demo_by_country df) /\
    StronglySorted count_desc (Batch.demo_counts df) /\
    StronglySorted count_desc (status_counts df).
Proof.
  intros df. repeat split; apply value_counts_desc.
Qed.

Lemma idxmax_sorted {K : Type} (s : list (K * Z)) :
  StronglySorted count_desc s ->
  idxmax s = match s with
             | [] => Raise ValueError
             | row :: _ => Ok (fst row)
             end.
Proof.
  destruct s as [|x rest]; [reflexivity|]. intros H.
  inversion H as [|? ? _ F]; subst. cbn [idxmax]. do 2 f_equal.
  induction rest as [|y rest IH]; [reflexivity|].
  inversion F as [|? ? Hy F']; subst. cbn [fold_left].
  unfold count_desc in Hy.
  destruct (Z.ltb_spec (snd x) (snd y)); [lia|].
  apply IH; [|assumption].
  constructor; [|assumption]. inversion H as [|? ? S _]; subst.
  now inversion S.
Qed.

(** The top product is the product of the first row of the table of
    sales counts, [df[df['Revenue'] > 0]['Product'].value_counts()];
    [idxmax] raises exactly when that table has no row. *)
Theorem top_product_is_first_row :
  forall df : DataFrame,
    top_product df
    = match value_counts String.eqb (sold_products df) with
      | [] => Raise ValueError
      | row :: _ => Ok (fst row)
      end.
Proof.
  intros df. unfold top_product. fold (sold_products df).
  apply idxmax_sorted, value_counts_desc.
Qed.

(* ================================================================== *)
(** ** How the tables of the scripts relate *)
(* ================================================================== *)

Lemma RequestType_demo (x : string) :
  String.eqb (RequestType x) "Scheduled Demo" = String.eqb x "/scheduledemo.php".
Proof.
  unfold RequestType.
  destruct (String.eqb_spec x "/aiassistant.php") as [->|_]; [reflexivity|].
  destruct (String.eqb_spec x "/scheduledemo.php") as [->|_]; [reflexivity|].
  destruct (String.eqb_spec x "/event.php") as [->|_]; [reflexivity|].
  now destruct (isin String.eqb x ["/job.php"; "/prototype.php"]).
Qed.

(** The demo table of ai_solutions_sales.py, which selects the rows by
    URL, is the demo table of the dashboards, which select them by
    request type. *)
Theorem demo_counts_agree :
  forall df : DataFrame, Batch.demo_counts df = demo_by_country df.
Proof.
  intros df. unfold Batch.demo_counts, demo_by_country. do 2 f_equal.
  unfold Batch.demo_requests, of_type. apply filter_ext.
  intros r. symmetry. apply RequestType_demo.
Qed.

Lemma occurrences_type_pair (df : DataFrame) (c t : string) :
  occurrences pair_eqb (c, t) (type_pairs df)
  = occurrences String.eqb c (map Country (of_type t df)).
Proof.
  unfold occurrences, type_pairs, of_type.
  rewrite !filter_map_swap, !length_map, filter_twice. do 2 f_equal.
  apply filter_ext. intros r. unfold pair_eqb. cbn [fst snd].
  rewrite andb_comm. f_equal. apply String.eqb_sym.
Qed.

Lemma type_pairs_In (df : DataFrame) (c t : string) :
  In (c, t) (type_pairs df) <-> In c (map Country (of_type t df)).
Proof.
  unfold type_pairs, of_type. rewrite !in_map_iff. split.
  - intros [r [[= <- <-] Hr]]. exists r. split; [reflexivity|].
    apply filter_In. split; [assumption | apply String.eqb_refl].
  - intros [r [<- Hr]]. apply filter_In in Hr. destruct Hr as [Hr E].
    apply String.eqb_eq in E. exists r. split; [now rewrite E | assumption].
Qed.

(** The Country x RequestType table and the per-type country counts
    agree: the row of (c, t) holds the number that counting the
    countries of the rows of type [t] gives for [c]; in particular its
    "Scheduled Demo" rows are the demo table. *)
Theorem type_country_agrees_with_country_counts :
  forall (df : DataFrame) (c : string) (n : Z),
    (forall t : string,
        In ((c, t), n) (type_country df)
        <-> In (c, n) (value_counts String.eqb (map Country (of_type t df)))) /\
    (In ((c, "Scheduled Demo"), n) (type_country df)
     <-> In (c, n) (demo_by_country df)).
Proof.
  intros df c n.
  assert (H : forall t : string,
             In ((c, t), n) (type_country df)
             <-> In (c, n) (value_counts String.eqb (map Country (of_type t df)))).
  { intros t.
    rewrite (counts_exactly_In pair_eqb _ _ _ _ (type_country_exact df)).
    rewrite (value_counts_In String.eqb String.eqb_eq).
    now rewrite occurrences_type_pair, type_pairs_In. }
  split; [exact H | apply H].
Qed.

Lemma job_page_iff_not_other (x : string) :
  isin String.eqb x Dashboard.job_pages = negb (String.eqb (RequestType x) "Other").
Proof.
  unfold RequestType, Dashboard.job_pages, isin. cbn [existsb].
  destruct (String.eqb_spec x "/aiassistant.php") as [->|_]; [reflexivity|].
  destruct (String.eqb_spec x "/scheduledemo.php") as [->|_]; [reflexivity|].
  destruct (String.eqb_spec x "/event.php") as [->|_]; [reflexivity|].
  destruct (String.eqb_spec x "/job.php") as [->|_]; [reflexivity|].
  destruct (String.eqb_spec x "/prototype.php") as [->|_]; reflexivity.
Qed.

(** The job chart of dashboard.py and ai_solutions_sales.py is drawn from
    exactly the rows whose request type is not "Other", so its counts
    and the number of "Other" rows add up to the number of rows. *)
Theorem df_jobs_is_all_but_other :
  forall df : DataFrame,
    Dashboard.df_jobs df
    = filter (fun r => negb (String.eqb (RequestType (URL r)) "Other")) df /\
    Batch.df_jobs df = Dashboard.df_jobs df /\
    total (map snd (Dashboard.job_counts df))
    + Z.of_nat (List.length (of_type "Other" df))
    = total_requests df.
Proof.
  intros df.
  assert (E : Dashboard.df_jobs df
              = filter (fun r => negb (String.eqb (RequestType (URL r)) "Other")) df).
  { unfold Dashboard.df_jobs. apply filter_ext. intros r. apply job_page_iff_not_other. }
  split; [exact E|]. split; [reflexivity|].
  unfold Dashboard.job_counts.
  rewrite (value_counts_total String.eqb String.eqb_eq), length_map, E.
  unfold of_type, total_requests.
  rewrite <- (filter_length (fun r => String.eqb (RequestType (URL r)) "Other") df).
  lia.
Qed.

(* ================================================================== *)
(** ** Size of the job chart *)
(* ================================================================== *)

Lemma value_counts_length_le {K : Type} (eqb : K -> K -> bool)
      (eqb_eq : forall x y, eqb x y = true <-> x = y) (ks bound : list K) :
  (forall k, In k ks -> In k bound) ->
  (List.length (value_counts eqb ks) <= List.length bound)%nat.
Proof.
  intros H. rewrite <- (length_map fst).
  apply NoDup_incl_length; [now apply value_counts_NoDup|].
  intros k Hk. apply H. now apply (value_counts_keys eqb eqb_eq).
Qed.

(** The job chart never has more than five slices (two in main.py), so
    slicing a palette of at least five colours to the length of the
    table gives exactly one colour per slice. *)
Theorem job_chart_size :
  forall (C : Type) (palette : list C) (df : DataFrame),
    (5 <= List.length palette)%nat ->
    (List.length (Batch.job_counts df) <= 5)%nat /\
    (List.length (Dashboard.job_counts df) <= 5)%nat /\
    (List.length (Main.job_counts df) <= 2)%nat /\
    List.length (BatchCharts.colors palette df) = List.length (Batch.job_counts df).
Proof.
  intros C palette df Hp.
  assert (H5 : (List.length (Dashboard.job_counts df) <= 5)%nat).
  { apply (value_counts_length_le String.eqb String.eqb_eq _ Dashboard.job_pages).
    intros u Hu. apply in_map_iff in Hu. destruct Hu as [r [<- Hr]].
    apply filter_In in Hr. now apply (isin_In String.eqb String.eqb_eq). }
  split; [exact H5|]. split; [exact H5|]. split.
  - apply (value_counts_length_le String.eqb String.eqb_eq _
             ["/job.php"; "/prototype.php"]).
    intros u Hu. apply in_map_iff in Hu. destruct Hu as [r [<- Hr]].
    apply filter_In in Hr. destruct Hr as [_ Hr]. rewrite RequestType_job in Hr.
    now apply (isin_In String.eqb String.eqb_eq).
  - unfold BatchCharts.colors. apply firstn_length_le.
    change (Batch.job_counts df) with (Dashboard.job_counts df). lia.
Qed.

Lemma job_chart_size_witness :
  (List.length (Batch.job_counts example_rows) <= 5)%nat /\
  (List.length (Dashboard.job_counts example_rows) <= 5)%nat /\
  (List.length (Main.job_counts example_rows) <= 2)%nat /\
  List.length (BatchCharts.colors ten_colors example_rows)
  = List.length (Batch.job_counts example_rows).
Proof.
  apply (job_chart_size string ten_colors example_rows). simpl. lia.
Defined.

(* ================================================================== *)
(** ** The dropdown and the chart it drives *)
(* ================================================================== *)

Lemma dropdown_options_In (df : DataFrame) (c : string) :
  In (c, c) (dropdown_options df) <-> In c (map Country df).
Proof.
  unfold dropdown_options. rewrite in_map_iff. split.
  - intros [c' [E H]]. inversion E; subst c'.
    apply sort_In in H. now apply (proj1 (unique_In String.eqb String.eqb_eq _ _)) in H.
  - intros H. exists c. split; [reflexivity|].
    apply sort_In. now apply (proj2 (unique_In String.eqb String.eqb_eq _ _)).
Qed.

Lemma country_rows_exact (df : DataFrame) (c : string) :
  counts_exactly pair_eqb
    (filter (fun k => String.eqb (fst k) c) (type_pairs df))
    (filtered (type_country df) (Some c)).
Proof.
  apply (counts_exactly_filter pair_eqb pair_eqb_eq
           (fun k => String.eqb (fst k) c)), type_country_exact.
Qed.

Lemma country_pairs_length (df : DataFrame) (c : string) :
  List.length (filter (fun k : string * string => String.eqb (fst k) c) (type_pairs df))
  = List.length (rows_of_country c df).
Proof.
  unfold type_pairs, rows_of_country. now rewrite filter_map_swap, length_map.
Qed.

(** The dropdown offers each country of the log once, in strictly
    ascending order, label and value alike.  Started on the loaded
    table, the chart callback of either dashboard draws for a country
    [c] only rows of [c], each with a count of at least one; the counts
    add up to the number of log rows of [c]; and the figure has rows
    exactly when [c] is one of the offered countries. *)
Theorem dropdown_drives_chart :
  forall (df : DataFrame) (c : string),
    let fig := fst (Main.update_request_type_chart (Some c) (load df)) in
    StronglySorted string_lt (map fst (dropdown_options df)) /\
    map snd (dropdown_options df) = map fst (dropdown_options df) /\
    (In (c, c) (dropdown_options df) <-> In c (map Country df)) /\
    (fig_rows fig <> [] <-> In (c, c) (dropdown_options df)) /\
    (forall row, In row (fig_rows fig) -> fst (fst row) = c /\ 1 <= snd row) /\
    total (map snd (fig_rows fig)) = Z.of_nat (List.length (rows_of_country c df)) /\
    fig_rows (fst (Dashboard.update_request_type_chart (Some c) (load df)))
    = fig_rows fig.
Proof.
  intros df c fig. subst fig.
  unfold Main.update_request_type_chart, Dashboard.update_request_type_chart, load.
  cbn [fst fig_rows g_type_country].
  pose proof (country_rows_exact df c) as Hex.
  split.
  { unfold dropdown_options. rewrite map_map. cbn [fst]. rewrite map_id.
    apply sorted_unique_strings. }
  split.
  { unfold dropdown_options. now rewrite !map_map. }
  split; [apply dropdown_options_In|].
  split.
  { rewrite dropdown_options_In. destruct Hex as [_ [Hk _]]. split.
    - intros Hne.
      destruct (filtered (type_country df) (Some c)) as [|[k n] t] eqn:Ef;
        [now destruct Hne|].
      assert (Hin : In k (map fst ((k, n) :: t))) by now left.
      apply Hk in Hin. apply filter_In in Hin. destruct Hin as [Hin E].
      apply String.eqb_eq in E. unfold type_pairs in Hin.
      apply in_map_iff in Hin. destruct Hin as [r [<- Hr]]. cbn [fst] in E.
      apply in_map_iff. now exists r.
    - intros Hin Hnil. apply in_map_iff in Hin. destruct Hin as [r [E Hr]].
      assert (Hp : In (Country r, RequestType (URL r))
                      (filter (fun k : string * string => String.eqb (fst k) c)
                              (type_pairs df))).
      { apply filter_In. split; [|now apply String.eqb_eq].
        unfold type_pairs. apply in_map_iff. now exists r. }
      apply Hk in Hp. rewrite Hnil in Hp. destruct Hp. }
  split.
  { intros [k n] Hrow. cbn [fst snd]. split.
    - apply filtered_In in Hrow. destruct Hrow as [_ [= E]]. exact E.
    - destruct Hex as [_ [_ Hc]]. now destruct (Hc k n Hrow). }
  split; [|reflexivity].
  rewrite (counts_exactly_total pair_eqb pair_eqb_eq _ _ Hex).
  now rewrite country_pairs_length.
Qed.

(* ================================================================== *)
(** ** Recommendations down the demo table (dashboard.py) *)
(* ================================================================== *)

Lemma Action_webinar (n : Z) : Dashboard.Action n = "💡 Webinar" <-> 1000 < n.
Proof.
  unfold Dashboard.Action.
  destruct (Z.ltb_spec 1000 n); [tauto|].
  destruct (Z.ltb_spec 500 n); split; (discriminate || lia).
Qed.

Lemma Action_translate (n : Z) : Dashboard.Action n = "📄 Translate Page" <-> n <= 500.
Proof.
  unfold Dashboard.Action.
  destruct (Z.ltb_spec 1000 n); [split; (discriminate || lia)|].
  destruct (Z.ltb_spec 500 n); split; (discriminate || lia || reflexivity).
Qed.

(** In the demo table of dashboard.py every row carries the
    recommendation of its own count, and the rows come in tier order:
    all Webinar countries first, then the Email Campaign ones, then the
    Translate Page ones, with counts never increasing downwards. *)
Theorem demo_recommendations_in_tier_order :
  forall df : DataFrame,
    StronglySorted tier_order (Dashboard.demo_by_country df) /\
    map fst (Dashboard.demo_by_country df) = demo_by_country df /\
    Forall (fun row => snd row = Dashboard.Action (snd (fst row)))
           (Dashboard.demo_by_country df).
Proof.
  intros df. unfold Dashboard.demo_by_country. split; [|split].
  - apply (proj2 (StronglySorted_map (fun row => (row, Dashboard.Action (snd row)))
                    tier_order (demo_by_country df))).
    apply (StronglySorted_impl count_desc); [|apply value_counts_desc].
    intros a b _ _ H. unfold count_desc in H. unfold tier_order. cbn [fst snd].
    split; [assumption|]. rewrite !Action_webinar, !Action_translate. lia.
  - rewrite map_map. cbn [fst]. apply map_id.
  - apply Forall_forall. intros row H. apply in_map_iff in H.
    now destruct H as [x [<- _]].
Qed.

(* ================================================================== *)
(** ** Cells of a grid line *)
(* ================================================================== *)

(** Picking the cell of a label from a line whose labels are distinct. *)
Lemma pick_cell (f : string -> Z) (cols : list string) (w : string) :
  NoDup cols -> In w cols ->
  filter (fun cell : string * Z => String.eqb (fst cell) w)
         (map (fun c => (c, f c)) cols)
  = [(w, f w)].
Proof.
  induction cols as [|c cols IH]; intros Hnd Hin; [destruct Hin|].
  inversion Hnd as [|? ? Hnot Hnd']; subst. cbn [map filter fst].
  destruct (String.eqb_spec c w) as [->|Hne].
  - f_equal. apply filter_none. intros [c' v] Hc'. cbn [fst].
    apply in_map_iff in Hc'. destruct Hc' as [x [[= <- _] Hx]].
    apply String.eqb_neq. intros ->. contradiction.
  - destruct Hin as [E|Hin]; [contradiction | now apply IH].
Qed.

(* ================================================================== *)
(** ** The text of the request total *)
(* ================================================================== *)

Lemma commas_rev_filter (ds : list ascii) (k : nat) :
  filter not_comma (commas_rev ds k) = filter not_comma ds.
Proof.
  revert k. induction ds as [|d ds IH]; intros k; [reflexivity|].
  cbn [commas_rev]. destruct (Nat.eqb k 3); cbn [filter];
    change (not_comma ","%char) with false; cbn iota;
    destruct (not_comma d); now rewrite IH.
Qed.

Lemma uint_digits_no_comma (d : Decimal.uint) :
  filter not_comma (list_ascii_of_string (NilEmpty.string_of_uint d))
  = list_ascii_of_string (NilEmpty.string_of_uint d).
Proof.
  induction d; cbn [NilEmpty.string_of_uint list_ascii_of_string filter];
    try reflexivity;
    match goal with
    | |- context [not_comma ?c] => change (not_comma c) with true
    end; cbn iota; now rewrite IHd.
Qed.

Lemma digits_no_comma (d : Decimal.uint) :
  filter not_comma (list_ascii_of_string (NilZero.string_of_uint d))
  = list_ascii_of_string (NilZero.string_of_uint d).
Proof.
  destruct d; try reflexivity; apply uint_digits_no_comma.
Qed.

Lemma drop_commas_group_digits (s : string) :
  filter not_comma (list_ascii_of_string s) = list_ascii_of_string s ->
  drop_commas (group_digits s) = s.
Proof.
  intros H. unfold drop_commas, group_digits. fold not_comma.
  rewrite list_ascii_of_string_of_list_ascii, filter_rev, commas_rev_filter.
  rewrite filter_rev, rev_involutive, H.
  apply string_of_list_ascii_of_string.
Qed.

Lemma drop_commas_fmt (n : Z) :
  drop_commas (fmt_commas n) = NilZero.string_of_int (Z.to_int n).
Proof.
  unfold fmt_commas. destruct (Z.to_int n) as [d|d].
  - cbn [NilZero.string_of_int]. apply drop_commas_group_digits, digits_no_comma.
  - cbn [NilZero.string_of_int].
    pose proof (drop_commas_group_digits _ (digits_no_comma d)) as H.
    unfold drop_commas in *. fold not_comma in *.
    cbn [list_ascii_of_string filter]. change (not_comma "-"%char) with true.
    cbn iota. cbn [string_of_list_ascii]. now rewrite H.
Qed.

(** A comma sits exactly at every fourth place counted from the right. *)
Lemma commas_rev_places (ds : list ascii) :
  filter not_comma ds = ds ->
  forall k i : nat,
    (k <= 3)%nat ->
    (nth_error (commas_rev ds k) i = Some ","%char
     <-> (i < List.length (commas_rev ds k))%nat /\ ((i + k) mod 4 = 3)%nat).
Proof.
  induction ds as [|d ds IH]; intros Hd k i Hk.
  - cbn [commas_rev List.length]. destruct i; cbn; split;
      (discriminate || intros [H _]; lia).
  - cbn [filter] in Hd. destruct (not_comma d) eqn:Ed.
    2:{ exfalso. assert (Hl : (List.length (filter not_comma ds) <= List.length ds)%nat)
          by apply filter_length_le.
        rewrite Hd in Hl. cbn [List.length] in Hl. lia. }
    injection Hd as Hd.
    assert (Hdc : d <> ","%char).
    { intros ->. cbv in Ed. discriminate. }
    cbn [commas_rev]. destruct (Nat.eqb_spec k 3) as [->|Hk3].
    + destruct i as [|[|j]]; cbn [nth_error List.length].
      * split; [intros _; split; [lia | reflexivity] | reflexivity].
      * split; [intros [= E]; contradiction | intros [_ E]; discriminate].
      * rewrite (IH Hd 1%nat j) by lia.
        replace ((S (S j) + 3) mod 4)%nat with ((j + 1) mod 4)%nat.
        -- split; intros [H1 H2]; split; (lia || assumption).
        -- replace (S (S j) + 3)%nat with ((j + 1) + 1 * 4)%nat by lia.
           now rewrite Nat.Div0.mod_add.
    + destruct i as [|j]; cbn [nth_error List.length].
      * split; [intros [= E]; contradiction|].
        intros [_ E]. cbn [Nat.add] in E. rewrite Nat.mod_small in E by lia. lia.
      * rewrite (IH Hd (S k) j) by lia.
        replace (S j + k)%nat with (j + S k)%nat by lia.
        split; intros [H1 H2]; split; (lia || assumption).
Qed.

Lemma string_length_list (s : string) :
  String.length s = List.length (list_ascii_of_string s).
Proof.
  induction s as [|c s IH]; [reflexivity|].
  cbn [String.length list_ascii_of_string List.length]. now rewrite IH.
Qed.

Lemma group_digits_places (s : string) :
  filter not_comma (list_ascii_of_string s) = list_ascii_of_string s ->
  forall i : nat,
    nth_error (rev (list_ascii_of_string (group_digits s))) i = Some ","%char
    <-> (i < String.length (group_digits s))%nat /\ (i mod 4 = 3)%nat.
Proof.
  intros H i. rewrite string_length_list. unfold group_digits.
  rewrite list_ascii_of_string_of_list_ascii, rev_involutive, length_rev.
  assert (Hr : filter not_comma (rev (list_ascii_of_string s))
               = rev (list_ascii_of_string s))
    by now rewrite filter_rev, H.
  rewrite (commas_rev_places _ Hr 0 i) by lia.
  now rewrite Nat.add_0_r.
Qed.

Lemma to_int_not_nil (n : Z) :
  Z.to_int n <> Decimal.Pos Decimal.Nil /\ Z.to_int n <> Decimal.Neg Decimal.Nil.
Proof.
  destruct n as [|p|p]; cbn [Z.to_int]; split; try discriminate;
    intros [= E]; now apply (DecimalPos.Unsigned.to_uint_nonnil p).
Qed.

Lemma read_int_fmt (n : Z) : read_int (fmt_commas n) = Some n.
Proof.
  unfold read_int. rewrite drop_commas_fmt.
  rewrite NilZero.isi by apply to_int_not_nil.
  cbn [option_map]. now rewrite DecimalZ.of_to.
Qed.

(** The card text of a count reads back as the count: without its commas
    it is the decimal writing of the number, and parsing it returns the
    number.  For a count that is not negative, the character at place
    [i] from the right is a comma exactly when [i] is 3, 7, 11, ... *)
Theorem fmt_commas_reads_back :
  forall n : Z,
    drop_commas (fmt_commas n) = NilZero.string_of_int (Z.to_int n) /\
    read_int (fmt_commas n) = Some n /\
    (0 <= n ->
     forall i : nat,
       nth_error (rev (list_ascii_of_string (fmt_commas n))) i = Some ","%char
       <-> (i < String.length (fmt_commas n))%nat /\ (i mod 4 = 3)%nat).
Proof.
  intros n. split; [apply drop_commas_fmt|]. split.
  - apply read_int_fmt.
  - intros Hn i. unfold fmt_commas.
    destruct n as [|p|p]; [| |lia]; cbn [Z.to_int];
      apply group_digits_places, digits_no_comma.
Qed.

(** The "Total Requests" card shows the number of rows of the log. *)
Theorem total_requests_text_reads_back :
  forall df : DataFrame,
    read_int (total_requests_text df) = Some (Z.of_nat (List.length df)).
Proof.
  intros df. unfold total_requests_text, total_requests. apply read_int_fmt.
Qed.

(* ================================================================== *)
(** ** Key order of the grouped tables *)
(* ================================================================== *)

Lemma string_compare_refl (a : string) : String.compare a a = Eq.
Proof. now apply OrderedTypeEx.String_as_OT.cmp_eq. Qed.

Lemma string_compare_lt_trans (a b c : string) :
  String.compare a b = Lt -> String.compare b c = Lt -> String.compare a c = Lt.
Proof.
  intros H1 H2.
  apply OrderedTypeEx.String_as_OT.cmp_lt in H1, H2.
  apply OrderedTypeEx.String_as_OT.cmp_lt.
  now apply (OrderedTypeEx.String_as_OT.lt_trans _ b).
Qed.

Lemma pair_leb_total (a b : string * string) :
  pair_leb a b = true \/ pair_leb b a = true.
Proof.
  unfold pair_leb. rewrite (String.compare_antisym (fst a) (fst b)).
  destruct (String.compare (fst b) (fst a)); cbn [CompOpp]; auto.
  apply String.leb_total.
Qed.

Lemma pair_leb_trans (a b c : string * string) :
  pair_leb a b = true -> pair_leb b c = true -> pair_leb a c = true.
Proof.
  unfold pair_leb.
  destruct (String.compare (fst a) (fst b)) eqn:Eab; [| |discriminate];
    destruct (String.compare (fst b) (fst c)) eqn:Ebc; try discriminate.
  - apply String.compare_eq_iff in Eab, Ebc. rewrite Eab, Ebc, string_compare_refl.
    apply string_leb_trans.
  - apply String.compare_eq_iff in Eab. now rewrite Eab, Ebc.
  - apply String.compare_eq_iff in Ebc. now rewrite <- Ebc, Eab.
  - now rewrite (string_compare_lt_trans _ _ _ Eab Ebc).
Qed.

Lemma pair_leb_neq_lt (a b : string * string) :
  pair_leb a b = true -> a <> b -> pair_lt a b.
Proof.
  unfold pair_leb, pair_lt, string_lt, String.ltb.
  destruct (String.compare (fst a) (fst b)) eqn:E; [| now left | discriminate].
  apply String.compare_eq_iff in E. intros Hle Hne. right. split; [assumption|].
  apply string_leb_neq_lt; [assumption|].
  intros E'. apply Hne. destruct a, b. cbn [fst snd] in *. congruence.
Qed.

Lemma StronglySorted_filter {A : Type} (R : A -> A -> Prop) (p : A -> bool)
      (l : list A) :
  StronglySorted R l -> StronglySorted R (filter p l).
Proof.
  induction 1 as [|a l S IH F]; cbn [filter]; [constructor|].
  destruct (p a); [|assumption]. constructor; [assumption|].
  rewrite Forall_forall in *. intros b Hb. apply filter_In in Hb. now apply F.
Qed.

Lemma type_country_sorted (df : DataFrame) :
  StronglySorted pair_lt (map fst (type_country df)).
Proof.
  unfold type_country, size. rewrite map_map. cbn [fst].
  rewrite (groupby_keys pair_eqb pair_leb).
  apply (StronglySorted_strict (fun x => x) (fun a b => pair_leb a b = true)).
  - intros a b. apply pair_leb_neq_lt.
  - rewrite map_id. apply (group_keys_NoDup pair_eqb pair_eqb_eq).
  - apply sort_strongly_sorted; [apply pair_leb_total | apply pair_leb_trans].
Qed.

Lemma string_lt_irrefl (a : string) : ~ string_lt a a.
Proof.
  unfold string_lt, String.ltb. now rewrite string_compare_refl.
Qed.

(** The grouped tables come in key order with no key twice: products
    and countries strictly ascending in the revenue tables of both
    dashboards, (Country, RequestType) pairs strictly ascending in the
    cross-tab; hence the rows the chart callback draws for a selection
    are in strictly ascending order of request type. *)
Theorem grouped_tables_in_key_order :
  forall (df : DataFrame) (selected_country : option string),
    StronglySorted string_lt (map (fun e => fst (fst e)) (Main.sales_by_product df)) /\
    StronglySorted string_lt (map fst (Main.sales_by_country df)) /\
    map (fun e => fst (fst e)) (Dashboard.sales_by_product df)
    = map (fun e => fst (fst e)) (Main.sales_by_product df) /\
    map fst (Dashboard.sales_by_country df) = map fst (Main.sales_by_country df) /\
    StronglySorted pair_lt (map fst (type_country df)) /\
    StronglySorted string_lt
      (map (fun row => snd (fst row))
           (fig_rows (fst (Main.update_request_type_chart selected_country (load df))))).
Proof.
  intros df sel.
  unfold Main.sales_by_product, Main.sales_by_country,
    Dashboard.sales_by_product, Dashboard.sales_by_country.
  rewrite !map_map. cbn [fst].
  change (map (fun x : string * list LogRecord => fst x)) with
    (map (@fst string (list LogRecord))).
  rewrite !(groupby_keys String.eqb String.leb).
  split; [apply sorted_unique_strings|]. split; [apply sorted_unique_strings|].
  split; [reflexivity|]. split; [reflexivity|].
  split; [apply type_country_sorted|].
  unfold Main.update_request_type_chart, load. cbn [fst fig_rows g_type_country].
  apply (proj2 (StronglySorted_map (fun row : (string * string) * Z => snd (fst row))
                  string_lt _)).
  apply (StronglySorted_impl (fun a b : (string * string) * Z => pair_lt (fst a) (fst b))).
  - intros a b Ha Hb [H | [_ H]]; [|exact H].
    apply filtered_In in Ha, Hb. destruct Ha as [_ Ha], Hb as [_ Hb].
    rewrite <- Hb in Ha. injection Ha as Ha. rewrite Ha in H.
    now apply string_lt_irrefl in H.
  - unfold filtered. apply StronglySorted_filter.
    apply (proj1 (StronglySorted_map fst pair_lt (type_country df))).
    apply type_country_sorted.
Qed.

(* ================================================================== *)
(** ** The job chart of main.py inside the one of dashboard.py *)
(* ================================================================== *)

Lemma of_type_job_In (df : DataFrame) (u : string) :
  In u (map URL (of_type "Job Request" df))
  <-> In u (map URL df) /\ In u ["/job.php"; "/prototype.php"].
Proof.
  unfold of_type. rewrite !in_map_iff. split.
  - intros [r [<- Hr]]. apply filter_In in Hr. destruct Hr as [Hr E].
    rewrite RequestType_job in E. apply (isin_In String.eqb String.eqb_eq) in E.
    split; [now exists r | assumption].
  - intros [[r [<- Hr]] Hu]. exists r. split; [reflexivity|].
    apply filter_In. split; [assumption|]. rewrite RequestType_job.
    now apply (isin_In String.eqb String.eqb_eq).
Qed.

(** The rows of main.py's job table are exactly the rows of dashboard.py's
    job table for [/job.php] and [/prototype.php], with the same counts:
    main.py drops the other three pages and changes nothing else. *)
Theorem main_job_counts_within_dashboard :
  forall (df : DataFrame) (u : string) (n : Z),
    In (u, n) (Main.job_counts df)
    <-> In (u, n) (Dashboard.job_counts df)
        /\ In u ["/job.php"; "/prototype.php"].
Proof.
  intros df u n. unfold Main.job_counts, Dashboard.job_counts.
  rewrite !(value_counts_In String.eqb String.eqb_eq), of_type_job_In.
  assert (Hjob : In u ["/job.php"; "/prototype.php"] ->
                 occurrences String.eqb u (map URL (of_type "Job Request" df))
                 = visits u df).
  { intros Hu. apply occurrences_URL. intros r <-. rewrite RequestType_job.
    now apply (isin_In String.eqb String.eqb_eq). }
  assert (Hfive : In u ["/job.php"; "/prototype.php"] ->
                  occurrences String.eqb u (map URL (Dashboard.df_jobs df))
                  = visits u df
                  /\ (In u (map URL df) <-> In u (map URL (Dashboard.df_jobs df)))).
  { intros Hu.
    assert (Hp : isin String.eqb u Dashboard.job_pages = true).
    { apply (isin_In String.eqb String.eqb_eq). unfold Dashboard.job_pages.
      cbn [In] in *. tauto. }
    split.
    - apply occurrences_URL. intros r <-. exact Hp.
    - unfold Dashboard.df_jobs. rewrite !in_map_iff.
      split; intros [r [<- Hr]]; exists r; (split; [reflexivity|]).
      + apply filter_In. now split.
      + now apply filter_In in Hr. }
  split.
  - intros [[Hin Hu] ->]. destruct (Hfive Hu) as [E Hiff].
    rewrite (Hjob Hu), E. tauto.
  - intros [[Hin ->] Hu]. destruct (Hfive Hu) as [E Hiff].
    rewrite (Hjob Hu), E. tauto.
Qed.

(* ================================================================== *)
(** ** Float64 cells and the order of additions *)
(* ================================================================== *)

Section FloatFacts.
Import PrimFloat FloatOps SpecFloat.

Lemma gt0_positive (x : float) : Float64.gt0 x = true -> Float64.is_positive x.
Proof.
  unfold Float64.gt0, Float64.is_positive. rewrite FloatAxioms.ltb_spec.
  change (Prim2SF 0) with (S754_zero false). unfold SFltb.
  destruct (Prim2SF x) as [s|s| |s m e]; cbn; try discriminate.
  - destruct s; [discriminate | now left].
  - destruct s; [discriminate | right; now exists m, e].
Qed.

Lemma ge0_not_gt0_zero (x : float) :
  Float64.ge x 0 = true -> Float64.gt0 x = false -> Float64.is_zero x.
Proof.
  unfold Float64.ge, Float64.gt0, Float64.is_zero.
  rewrite FloatAxioms.ltb_spec, FloatAxioms.leb_spec.
  change (Prim2SF 0) with (S754_zero false). unfold SFltb, SFleb.
  destruct (Prim2SF x) as [s|s| |s m e]; cbn; try discriminate.
  - intros _ _. now exists s.
  - destruct s; discriminate.
  - destruct s; discriminate.
Qed.

Lemma isnan_nan (x : float) : Float64.isnan x = true <-> Prim2SF x = S754_nan.
Proof.
  unfold Float64.isnan. rewrite FloatAxioms.eqb_spec, negb_true_iff.
  unfold SFeqb. destruct (Prim2SF x) as [s|s| |s m e]; cbn.
  - split; discriminate.
  - destruct s; split; discriminate.
  - split; reflexivity.
  - rewrite Z.compare_refl, Pos.compare_cont_refl.
    destruct s; split; discriminate.
Qed.

Lemma positive_not_nan (x : float) : Float64.gt0 x = true -> Float64.isnan x = false.
Proof.
  intros H. apply gt0_positive in H.
  destruct (Float64.isnan x) eqn:E; [|reflexivity].
  apply isnan_nan in E. destruct H as [H | [m [e H]]]; rewrite H in E; discriminate.
Qed.

Lemma nan_not_positive (x : float) : Float64.isnan x = true -> Float64.gt0 x = false.
Proof.
  intros H. destruct (Float64.gt0 x) eqn:E; [|reflexivity].
  apply positive_not_nan in E. congruence.
Qed.

Lemma add_zero_r (a z : float) :
  Float64.is_zero z -> ~ Float64.is_zero a -> (a + z)%float = a.
Proof.
  intros [s Hz] Ha. apply FloatAxioms.Prim2SF_inj.
  rewrite FloatAxioms.add_spec, Hz. unfold FloatAxioms.SF64add.
  destruct (Prim2SF a) as [sa|sa| |sa m e] eqn:E; cbn; try reflexivity.
  destruct Ha. now exists sa.
Qed.

Lemma add_zero_l (a x : float) :
  Float64.is_zero a -> Float64.is_positive x -> (a + x)%float = x.
Proof.
  intros [s Ha] Hx. apply FloatAxioms.Prim2SF_inj.
  rewrite FloatAxioms.add_spec, Ha. unfold FloatAxioms.SF64add.
  destruct Hx as [Hx | [m [e Hx]]]; rewrite Hx; reflexivity.
Qed.

Lemma add_zeros (a z : float) :
  Float64.is_zero a -> Float64.is_zero z -> Float64.is_zero (a + z)%float.
Proof.
  intros [s Ha] [s' Hz]. unfold Float64.is_zero.
  rewrite FloatAxioms.add_spec, Ha, Hz. unfold FloatAxioms.SF64add.
  destruct s, s'; cbn; eexists; reflexivity.
Qed.

Lemma zero_add_zero (z : float) : Float64.is_zero z -> (0 + z)%float = 0%float.
Proof.
  intros [s Hz]. apply FloatAxioms.Prim2SF_inj.
  rewrite FloatAxioms.add_spec, Hz.
  change (Prim2SF 0) with (S754_zero false). now destruct s.
Qed.

Lemma is_zero_dec (a : float) : Float64.is_zero a \/ ~ Float64.is_zero a.
Proof.
  unfold Float64.is_zero. destruct (Prim2SF a) as [s|s| |s m e].
  - left. now exists s.
  - right. intros [s' H]. discriminate.
  - right. intros [s' H]. discriminate.
  - right. intros [s' H]. discriminate.
Qed.

Lemma exact_zero (x : float) : Float64.is_zero x -> Float64.exact x = 0%Q.
Proof. intros [s H]. unfold Float64.exact. now rewrite H. Qed.

(** Adding a column left to right, with and without its zero cells: the
    two running sums are equal, or both of them are zeros. *)
Lemma fold_add_skip_zeros (xs : list float) :
  (forall x, In x xs -> Float64.ge x 0 = true) ->
  forall a b : float,
    a = b \/ (Float64.is_zero a /\ Float64.is_zero b) ->
    fold_left add xs a = fold_left add (filter Float64.gt0 xs) b \/
    (Float64.is_zero (fold_left add xs a) /\
     Float64.is_zero (fold_left add (filter Float64.gt0 xs) b)).
Proof.
  induction xs as [|x xs IH]; intros H a b Hab; [exact Hab|].
  cbn [fold_left filter].
  assert (H' : forall y, In y xs -> Float64.ge y 0 = true)
    by (intros y Hy; apply H; now right).
  destruct (Float64.gt0 x) eqn:Ex.
  - cbn [fold_left]. apply (IH H'). left.
    destruct Hab as [-> | [Ha Hb]]; [reflexivity|].
    apply gt0_positive in Ex. now rewrite !add_zero_l.
  - apply (IH H').
    pose proof (ge0_not_gt0_zero x (H x (or_introl eq_refl)) Ex) as Hz.
    destruct Hab as [-> | [Ha Hb]].
    + destruct (is_zero_dec b) as [Hb | Hb].
      * right. split; [now apply add_zeros | assumption].
      * left. now apply add_zero_r.
    + right. split; [now apply add_zeros | assumption].
Qed.

Lemma pairwise_sum_small (fuel : nat) (a : list float) :
  (List.length a < 8)%nat -> Float64.pairwise_sum fuel a = fold_left add a (-0)%float.
Proof.
  intros H. apply Nat.ltb_lt in H.
  destruct fuel; cbn [Float64.pairwise_sum]; now rewrite H.
Qed.

Lemma filter_length_le {A : Type} (p : A -> bool) (l : list A) :
  (List.length (filter p l) <= List.length l)%nat.
Proof.
  induction l as [|x l IH]; [constructor|].
  cbn [filter]. destruct (p x); cbn [List.length]; lia.
Qed.

(** A column of fewer than 8 cells, none negative or missing, has the
    same float64 sum as its positive cells alone. *)
Lemma add_reduce_small (xs : list float) :
  (List.length xs < 8)%nat ->
  (forall x, In x xs -> Float64.ge x 0 = true) ->
  Float64.add_reduce xs = Float64.add_reduce (filter Float64.gt0 xs).
Proof.
  intros Hlen H. unfold Float64.add_reduce.
  rewrite !pairwise_sum_small;
    [|pose proof (filter_length_le Float64.gt0 xs); lia | assumption].
  destruct (fold_add_skip_zeros xs H (-0)%float (-0)%float (or_introl eq_refl))
    as [-> | [Ha Hb]]; [reflexivity|].
  now rewrite !zero_add_zero.
Qed.

Lemma fill0_not_negative (xs : list float) :
  (forall x, In x xs -> Float64.not_negative x = true) ->
  forall x, In x (Float64.fill0 xs) -> Float64.ge x 0 = true.
Proof.
  intros H x Hx. unfold Float64.fill0 in Hx. apply in_map_iff in Hx.
  destruct Hx as [y [<- Hy]]. specialize (H y Hy).
  unfold Float64.not_negative in H.
  destruct (Float64.isnan y); [reflexivity|]. now rewrite orb_false_r in H.
Qed.

Lemma positive_of_fill0 (xs : list float) :
  filter Float64.gt0 (Float64.fill0 xs) = filter Float64.gt0 xs.
Proof.
  induction xs as [|x xs IH]; [reflexivity|].
  cbn [Float64.fill0 map filter]. fold (Float64.fill0 xs). rewrite IH.
  destruct (Float64.isnan x) eqn:E; [|reflexivity].
  rewrite (nan_not_positive x E). reflexivity.
Qed.

Lemma fill0_of_positive (xs : list float) :
  Float64.fill0 (filter Float64.gt0 xs) = filter Float64.gt0 xs.
Proof.
  induction xs as [|x xs IH]; [reflexivity|].
  cbn [filter]. destruct (Float64.gt0 x) eqn:E; [|exact IH].
  cbn [Float64.fill0 map]. fold (Float64.fill0 (filter Float64.gt0 xs)).
  now rewrite IH, (positive_not_nan x E).
Qed.

Lemma notna_of_positive (xs : list float) :
  (forall x, In x xs -> Float64.gt0 x = true) -> Float64.notna xs = xs.
Proof.
  induction xs as [|x xs IH]; intros H; [reflexivity|].
  cbn [Float64.notna filter].
  rewrite (positive_not_nan x (H x (or_introl eq_refl))). cbn [negb].
  f_equal. apply IH. intros y Hy. apply H. now right.
Qed.

(** The exact amounts of a column without a negative cell add up to the
    exact amounts of its positive cells. *)
Lemma exact_skip_zeros (xs : list float) :
  (forall x, In x xs -> Float64.ge x 0 = true) ->
  (Qtotal (map Float64.exact xs)
   == Qtotal (map Float64.exact (filter Float64.gt0 xs)))%Q.
Proof.
  induction xs as [|x xs IH]; intros H; [reflexivity|].
  assert (IH' : (Qtotal (map Float64.exact xs)
                 == Qtotal (map Float64.exact (filter Float64.gt0 xs)))%Q)
    by (apply IH; intros y Hy; apply H; now right).
  cbn [map filter Qtotal fold_right]. fold (Qtotal (map Float64.exact xs)).
  destruct (Float64.gt0 x) eqn:E.
  - cbn [map Qtotal fold_right].
    fold (Qtotal (map Float64.exact (filter Float64.gt0 xs))). now rewrite IH'.
  - rewrite (exact_zero x (ge0_not_gt0_zero x (H x (or_introl eq_refl)) E)), IH'.
    apply Qplus_0_l.
Qed.

End FloatFacts.

Section RevenueTotal.
Import PrimFloat.

Lemma loaded_positive_column (df : Loaded.Frame) :
  map Loaded.Revenue (Loaded.positive_revenue df)
  = filter Float64.gt0 (map Loaded.Revenue df).
Proof.
  unfold Loaded.positive_revenue. now rewrite filter_map_swap.
Qed.

(** C8, as the scripts compute it.  On a table whose revenue cells are
    zero, positive or missing, the revenue column of the positive-revenue
    rows is the whole column without its zero and missing cells, and the
    exact amounts of the two columns add up to the same number.  The
    float64 totals that [sum()] returns for the two columns are the same
    number when the table has fewer than 8 rows. *)
Theorem total_revenue_from_positive_rows :
  forall df : Loaded.Frame,
    (forall r, In r df -> Float64.not_negative (Loaded.Revenue r) = true) ->
    map Loaded.Revenue (Loaded.positive_revenue df)
    = filter Float64.gt0 (Float64.fill0 (map Loaded.Revenue df)) /\
    (Qtotal (map Float64.exact (Float64.fill0 (map Loaded.Revenue df)))
     == Qtotal (map Float64.exact (map Loaded.Revenue (Loaded.positive_revenue df))))%Q /\
    ((List.length df < 8)%nat ->
     Loaded.total_revenue df
     = Float64.nansum (map Loaded.Revenue (Loaded.positive_revenue df))).
Proof.
  intros df H.
  assert (Hcol : forall x, In x (map Loaded.Revenue df) -> Float64.not_negative x = true).
  { intros x Hx. apply in_map_iff in Hx. destruct Hx as [r [<- Hr]]. now apply H. }
  pose proof (fill0_not_negative _ Hcol) as Hfill.
  rewrite loaded_positive_column, positive_of_fill0.
  split; [reflexivity|]. split.
  - rewrite <- positive_of_fill0. now apply exact_skip_zeros.
  - intros Hlen. unfold Loaded.total_revenue, Float64.nansum.
    rewrite fill0_of_positive, <- positive_of_fill0.
    apply add_reduce_small; [|assumption].
    unfold Float64.fill0. now rewrite !length_map.
Qed.

Lemma total_revenue_from_positive_rows_witness :
  map Loaded.Revenue (Loaded.positive_revenue Loaded.mixed_sales)
  = filter Float64.gt0 (Float64.fill0 (map Loaded.Revenue Loaded.mixed_sales)) /\
  (Qtotal (map Float64.exact (Float64.fill0 (map Loaded.Revenue Loaded.mixed_sales)))
   == Qtotal (map Float64.exact
                  (map Loaded.Revenue (Loaded.positive_revenue Loaded.mixed_sales))))%Q /\
  ((List.length Loaded.mixed_sales < 8)%nat ->
   Loaded.total_revenue Loaded.mixed_sales
   = Float64.nansum (map Loaded.Revenue (Loaded.positive_revenue Loaded.mixed_sales))).
Proof.
  apply (total_revenue_from_positive_rows Loaded.mixed_sales).
  intros r [<- | [<- | [<- | [<- | []]]]]; reflexivity.
Defined.

(** C8 as stated fails.  The table has eight rows, three sales of 0.1,
    0.2 and 0.3 and five rows of revenue 0.  Over the whole column
    [sum()] adds eight running sums pairwise and returns 0.6; over the
    three positive cells it adds left to right and returns
    0.6000000000000001. *)
Lemma total_revenue_differs_in_float64 :
  forallb (fun r => Float64.ge (Loaded.Revenue r) 0) Loaded.eight_rows = true /\
  Loaded.metrics Loaded.eight_rows
  = Ok (Loaded.mkMetrics 8 0.6%float 0.20000000000000004%float "A") /\
  Loaded.total_revenue Loaded.eight_rows = 0.6%float /\
  Float64.nansum (map Loaded.Revenue (Loaded.positive_revenue Loaded.eight_rows))
  = 0.6000000000000001%float /\
  PrimFloat.eqb (Loaded.total_revenue Loaded.eight_rows)
                (Float64.nansum
                   (map Loaded.Revenue (Loaded.positive_revenue Loaded.eight_rows)))
  = false.
Proof. repeat split. Qed.

End RevenueTotal.

(* ================================================================== *)
(** ** Revenue by product and by country on the loaded frame *)
(* ================================================================== *)

Section LoadedSales.
Import PrimFloat.

Lemma loaded_positive_revenue_In (df : Loaded.Frame) (r : Loaded.Row) :
  In r (Loaded.positive_revenue df)
  <-> In r df /\ Float64.gt0 (Loaded.Revenue r) = true.
Proof. apply filter_In. Qed.

Lemma loaded_positive_revenue_idem (df : Loaded.Frame) :
  Loaded.positive_revenue (Loaded.positive_revenue df) = Loaded.positive_revenue df.
Proof.
  unfold Loaded.positive_revenue. rewrite filter_twice. apply filter_ext.
  intros r. now destruct (Float64.gt0 (Loaded.Revenue r)).
Qed.

(** A group of the revenue tables holds sales only, and at least one. *)
Lemma loaded_sales_group (key : Loaded.Row -> option string) (df : Loaded.Frame)
      (k : string) (g : list Loaded.Row) :
  In (k, g) (groupby String.eqb String.leb key (Loaded.positive_revenue df)) ->
  g = Loaded.sales_of key df k /\
  (forall r, In r g -> Float64.gt0 (Loaded.Revenue r) = true) /\
  1 <= Z.of_nat (List.length g).
Proof.
  intros H.
  pose proof (groupby_nonempty String.eqb String.eqb_eq _ _ _ _ _ H) as Hne.
  apply (groupby_In String.eqb String.eqb_eq) in H. destruct H as [_ ->].
  split; [|split; [|assumption]].
  - unfold Loaded.sales_of, Loaded.positive_revenue. apply filter_twice.
  - intros r Hr. apply filter_In in Hr. destruct Hr as [Hr _].
    now apply loaded_positive_revenue_In in Hr.
Qed.

Lemma exact_total_app (l l' : list Loaded.Row) :
  (Loaded.exact_total (l ++ l') == Loaded.exact_total l + Loaded.exact_total l')%Q.
Proof. unfold Loaded.exact_total. rewrite map_app. apply Qtotal_app. Qed.

Lemma exact_total_perm (l l' : list Loaded.Row) :
  Permutation l l' -> (Loaded.exact_total l == Loaded.exact_total l')%Q.
Proof.
  intros P. unfold Loaded.exact_total. now apply Qtotal_perm, Permutation_map.
Qed.

Lemma exact_total_flat_map {K : Type} (f : K -> list Loaded.Row) (ks : list K) :
  (Qtotal (map (fun k => Loaded.exact_total (f k)) ks)
   == Loaded.exact_total (flat_map f ks))%Q.
Proof.
  induction ks as [|k ks IH]; [reflexivity|].
  cbn [map Qtotal fold_right flat_map].
  fold (Qtotal (map (fun k => Loaded.exact_total (f k)) ks)).
  now rewrite exact_total_app, IH.
Qed.

Lemma loaded_keyed_sales (key : Loaded.Row -> option string) (df : Loaded.Frame) :
  filter (fun r => present (key r)) (Loaded.positive_revenue df)
  = Loaded.keyed_sales key df.
Proof. unfold Loaded.positive_revenue, Loaded.keyed_sales. apply filter_twice. Qed.

Lemma summary_keys {R S : Type} (key : R -> option string) (agg : list R -> S)
      (rows : list R) :
  map fst (map (fun g : string * list R => (fst g, agg (snd g)))
               (groupby String.eqb String.leb key rows))
  = sort String.leb (unique String.eqb (dropna (map key rows))).
Proof. rewrite map_map. cbn [fst]. apply (groupby_keys String.eqb String.leb key). Qed.

(** Summaries of the groups of the positive-revenue rows. *)
Lemma groups_built_from_sales {S : Type} (key : Loaded.Row -> option string)
      (agg : list Loaded.Row -> S) (df : Loaded.Frame) :
  Loaded.built_from_sales key agg df
    (map (fun g => (fst g, agg (snd g)))
         (groupby String.eqb String.leb key (Loaded.positive_revenue df))).
Proof.
  set (rows := Loaded.positive_revenue df).
  pose proof (summary_keys key agg rows) as Hkeys.
  assert (Hperm : Permutation
                    (flat_map (Loaded.sales_of key df)
                              (sort String.leb (unique String.eqb (dropna (map key rows)))))
                    (Loaded.keyed_sales key df)).
  { rewrite <- loaded_keyed_sales. fold rows.
    rewrite <- (groupby_partition String.eqb String.eqb_eq String.leb key rows).
    unfold groupby. rewrite (flat_map_concat_map snd), map_map. cbn [snd].
    rewrite <- flat_map_concat_map.
    replace (flat_map (Loaded.sales_of key df)
                      (sort String.leb (unique String.eqb (dropna (map key rows)))))
      with (flat_map (fun k => filter (has_key String.eqb key k) rows)
                     (sort String.leb (unique String.eqb (dropna (map key rows)))));
      [reflexivity|].
    apply flat_map_ext. intros k. unfold rows, Loaded.sales_of, Loaded.positive_revenue.
    apply filter_twice. }
  unfold Loaded.built_from_sales. rewrite Hkeys.
  split; [|split; [|split; [|split]]].
  - apply (group_keys_NoDup String.eqb String.eqb_eq).
  - intros k. rewrite (group_keys_In String.eqb String.eqb_eq). unfold rows.
    split; intros [r [Hr Hk]]; exists r.
    + apply loaded_positive_revenue_In in Hr. tauto.
    + split; [apply loaded_positive_revenue_In|]; tauto.
  - intros k s H. apply in_map_iff in H. destruct H as [[k' g] [E H]].
    cbn [fst snd] in E. inversion E; subst. clear E.
    now destruct (loaded_sales_group key df k g H) as [-> _].
  - exact Hperm.
  - rewrite exact_total_flat_map. now apply exact_total_perm.
Qed.

(** C3, for the two dashboards.  The revenue-by-product and
    revenue-by-country tables of main.py and dashboard.py are built from
    the positive-revenue rows only: there is one row per product (per
    country) of a positive-revenue row, its summary aggregates the
    positive-revenue rows of that key, and leaving the other rows out of
    the input changes neither table.  The groups of a table are, each
    row once, the positive-revenue rows whose key is present, so the
    exact amounts of the groups add up to the exact amount of those
    rows: a sale with an empty product (country) field is in no group. *)
Theorem revenue_tables_from_sales_only :
  forall df : Loaded.Frame,
    Loaded.built_from_sales Loaded.Product Loaded.Main.agg df
                            (map fst (Loaded.Main.sales_by_product df)) /\
    Loaded.built_from_sales Loaded.Product Loaded.Dashboard.agg df
                            (map fst (Loaded.Dashboard.sales_by_product df)) /\
    Loaded.built_from_sales Loaded.Country Loaded.Main.agg df
                            (Loaded.Main.sales_by_country df) /\
    Loaded.built_from_sales Loaded.Country Loaded.Dashboard.agg df
                            (Loaded.Dashboard.sales_by_country df) /\
    Loaded.Main.sales_by_product (Loaded.positive_revenue df)
    = Loaded.Main.sales_by_product df /\
    Loaded.Dashboard.sales_by_product (Loaded.positive_revenue df)
    = Loaded.Dashboard.sales_by_product df /\
    Loaded.Main.sales_by_country (Loaded.positive_revenue df)
    = Loaded.Main.sales_by_country df /\
    Loaded.Dashboard.sales_by_country (Loaded.positive_revenue df)
    = Loaded.Dashboard.sales_by_country df.
Proof.
  intros df.
  assert (Hmp : map fst (Loaded.Main.sales_by_product df)
                = map (fun g => (fst g, Loaded.Main.agg (snd g)))
                      (groupby String.eqb String.leb Loaded.Product
                               (Loaded.positive_revenue df))).
  { unfold Loaded.Main.sales_by_product. now rewrite map_map. }
  assert (Hdp : map fst (Loaded.Dashboard.sales_by_product df)
                = map (fun g => (fst g, Loaded.Dashboard.agg (snd g)))
                      (groupby String.eqb String.leb Loaded.Product
                               (Loaded.positive_revenue df))).
  { unfold Loaded.Dashboard.sales_by_product. now rewrite map_map. }
  rewrite Hmp, Hdp.
  split; [apply groups_built_from_sales|].
  split; [apply groups_built_from_sales|].
  split; [apply groups_built_from_sales|].
  split; [apply groups_built_from_sales|].
  unfold Loaded.Main.sales_by_product, Loaded.Dashboard.sales_by_product,
    Loaded.Main.sales_by_country, Loaded.Dashboard.sales_by_country,
    Loaded.avg_sale_value.
  rewrite !loaded_positive_revenue_idem. repeat split.
Qed.

(** C3 as stated fails, on tables that main.py and ai_solutions_sales.py
    run through.  A sale whose product field is empty is in no product
    group: the product totals come to 100 where the positive-revenue
    rows sum to 105.  The total of a group and the sum over the
    positive-revenue rows are rounded on different paths: three sales of
    0.1, 0.2 and 0.3 in one country give a group total of 0.6 and a
    column sum of 0.6000000000000001.  And ai_solutions_sales.py groups
    every row by country, so a country whose only row has revenue 0 has a
    row in its table. *)
Lemma revenue_tables_counterexample :
  Loaded.metrics Loaded.named_and_unnamed
  = Ok (Loaded.mkMetrics 2 105%float 52.5%float "Widget") /\
  map (fun e => (fst (fst e), Loaded.Main.TotalRevenue (snd (fst e))))
      (Loaded.Main.sales_by_product Loaded.named_and_unnamed)
  = [("Widget", 100%float)] /\
  Float64.nansum (map Loaded.Revenue (Loaded.positive_revenue Loaded.named_and_unnamed))
  = 105%float /\
  Loaded.metrics Loaded.three_sales
  = Ok (Loaded.mkMetrics 3 0.6000000000000001%float 0.20000000000000004%float "A") /\
  map (fun e => (fst e, Loaded.Main.TotalRevenue (snd e)))
      (Loaded.Main.sales_by_country Loaded.three_sales)
  = [("USA", 0.6%float)] /\
  Float64.nansum (map Loaded.Revenue (Loaded.positive_revenue Loaded.three_sales))
  = 0.6000000000000001%float /\
  PrimFloat.eqb 0.6%float 0.6000000000000001%float = false /\
  Loaded.Batch.run_sales_by_country Loaded.example_frame
  = BatchCharts.Selected [("UK", 0%float); ("USA", 100%float)] /\
  Loaded.sales_of Loaded.Country Loaded.example_frame "UK" = [].
Proof. repeat split. Qed.

End LoadedSales.

(* ================================================================== *)
(** ** Colour tags on the loaded frame *)
(* ================================================================== *)

Section LoadedColours.
Import PrimFloat.

Lemma loaded_all_named (df : Loaded.Frame) :
  (forall r, In r df -> Float64.gt0 (Loaded.Revenue r) = true
             -> Loaded.Product r <> None) ->
  Loaded.keyed_sales Loaded.Product df = Loaded.positive_revenue df.
Proof.
  intros H. unfold Loaded.keyed_sales, Loaded.positive_revenue.
  apply filter_ext_in. intros r Hr.
  destruct (Float64.gt0 (Loaded.Revenue r)) eqn:E; [|reflexivity].
  specialize (H r Hr E). destruct (Loaded.Product r); [reflexivity | now destruct H].
Qed.

Lemma total_lengths {A K : Type} (f : K -> list A) (ks : list K) :
  total (map (fun k => Z.of_nat (List.length (f k))) ks)
  = Z.of_nat (List.length (flat_map f ks)).
Proof.
  induction ks as [|k ks IH]; [reflexivity|].
  cbn [map total fold_right flat_map].
  fold (total (map (fun k => Z.of_nat (List.length (f k))) ks)).
  rewrite length_app, Nat2Z.inj_add, IH. reflexivity.
Qed.

(** When every sale names its product, the exact mean of some product's
    sales is at least the exact mean of all sales. *)
Lemma some_product_at_exact_average (df : Loaded.Frame) :
  (forall r, In r df -> Float64.gt0 (Loaded.Revenue r) = true
             -> Loaded.Product r <> None) ->
  (exists r, In r df /\ Float64.gt0 (Loaded.Revenue r) = true) ->
  exists k, In k (sort String.leb
                       (unique String.eqb
                               (dropna (map Loaded.Product (Loaded.positive_revenue df))))) /\
            (Loaded.exact_mean (Loaded.positive_revenue df)
             <= Loaded.exact_mean (Loaded.sales_of Loaded.Product df k))%Q.
Proof.
  intros Hnamed [r0 [Hr0 Hpos0]].
  pose proof (groups_built_from_sales Loaded.Product (fun g => g) df) as H.
  pose proof (summary_keys Loaded.Product (fun g : list Loaded.Row => g)
                (Loaded.positive_revenue df)) as Ek.
  unfold Loaded.built_from_sales in H. cbv beta in H, Ek. rewrite Ek in H.
  clear Ek. destruct H as [_ [Hkeys [_ [P Hsum]]]].
  rewrite (loaded_all_named df Hnamed) in P, Hsum.
  set (rows := Loaded.positive_revenue df) in *.
  set (keys := sort String.leb (unique String.eqb (dropna (map Loaded.Product rows)))) in *.
  set (a := Loaded.exact_mean rows).
  destruct (existsb (fun k => Qle_bool a (Loaded.exact_mean (Loaded.sales_of Loaded.Product df k)))
                    keys) eqn:Ex.
  { apply existsb_exists in Ex. destruct Ex as [k [Hk Hle]].
    exists k. split; [assumption | now apply Qle_bool_iff]. }
  exfalso.
  assert (Hin0 : In r0 rows) by (apply loaded_positive_revenue_In; auto).
  assert (Hlen : (0 < inject_Z (Z.of_nat (List.length rows)))%Q).
  { change 0%Q with (inject_Z 0). rewrite <- Zlt_Qlt.
    destruct rows; [destruct Hin0 | cbn [List.length]; lia]. }
  set (gs := map (fun k => (Loaded.exact_total (Loaded.sales_of Loaded.Product df k),
                            Z.of_nat (List.length (Loaded.sales_of Loaded.Product df k))))
                 keys).
  assert (Hlt : (Qtotal (map fst gs) < a * inject_Z (total (map snd gs)))%Q).
  { apply groups_below_average.
    - unfold gs. destruct keys as [|k keys']; [|discriminate].
      cbn [flat_map] in P. apply Permutation_nil in P.
      rewrite P in Hin0. destruct Hin0.
    - intros s n Hsn. unfold gs in Hsn. apply in_map_iff in Hsn.
      destruct Hsn as [k [E Hk]]. inversion E; subst s n. clear E.
      split.
      + apply Hkeys in Hk. destruct Hk as [r [Hr [Hpos Hkey]]].
        apply (filter_nonempty_length _ _ r Hr). rewrite Hpos. cbn [andb].
        now apply (has_key_iff String.eqb String.eqb_eq).
      + apply Qnot_le_lt. intros Hle. apply Qle_bool_iff in Hle.
        assert (Ht : existsb (fun k => Qle_bool a (Loaded.exact_mean
                                                     (Loaded.sales_of Loaded.Product df k)))
                             keys = true)
          by (apply existsb_exists; now exists k).
        rewrite Ht in Ex. discriminate. }
  unfold gs in Hlt. rewrite !map_map in Hlt. cbn [fst snd] in Hlt.
  rewrite Hsum, total_lengths, (Permutation_length P) in Hlt.
  assert (E : (a * inject_Z (Z.of_nat (List.length rows)) == Loaded.exact_total rows)%Q).
  { unfold a, Loaded.exact_mean. field. intros E0. rewrite E0 in Hlen.
    now apply Qlt_irrefl in Hlen. }
  rewrite E in Hlt. now apply Qlt_irrefl in Hlt.
Qed.

(** C10, as far as it holds.  When there is a positive-revenue row and
    every positive-revenue row has a finite amount and names a product,
    the sales-by-product table of either dashboard has a product whose
    sales average, as exact numbers, at least the average of all
    sales. *)
Theorem some_product_at_average :
  forall df : Loaded.Frame,
    (forall r, In r df -> Float64.gt0 (Loaded.Revenue r) = true
               -> Float64.finite (Loaded.Revenue r) = true) ->
    (forall r, In r df -> Float64.gt0 (Loaded.Revenue r) = true
               -> Loaded.Product r <> None) ->
    (exists r, In r df /\ Float64.gt0 (Loaded.Revenue r) = true) ->
    (exists e, In e (Loaded.Main.sales_by_product df) /\
               (Loaded.exact_mean (Loaded.positive_revenue df)
                <= Loaded.exact_mean (Loaded.sales_of Loaded.Product df (fst (fst e))))%Q) /\
    (exists e, In e (Loaded.Dashboard.sales_by_product df) /\
               (Loaded.exact_mean (Loaded.positive_revenue df)
                <= Loaded.exact_mean (Loaded.sales_of Loaded.Product df (fst (fst e))))%Q).
Proof.
  intros df _ Hnamed Hsale.
  destruct (some_product_at_exact_average df Hnamed Hsale) as [k [Hk Hle]].
  rewrite <- (groupby_keys String.eqb String.leb Loaded.Product) in Hk.
  apply in_map_iff in Hk. destruct Hk as [g [Eg Hg]]. subst k.
  split.
  - exists ((fst g, Loaded.Main.agg (snd g)),
            Loaded.Color (Loaded.avg_sale_value df)
                         (Loaded.Main.AvgSaleValue (Loaded.Main.agg (snd g)))).
    split; [|exact Hle].
    unfold Loaded.Main.sales_by_product. apply in_map_iff. exists g. now split.
  - exists ((fst g, Loaded.Dashboard.agg (snd g)),
            Loaded.Color (Loaded.avg_sale_value df)
                         (Loaded.Dashboard.AvgSale (Loaded.Dashboard.agg (snd g)))).
    split; [|exact Hle].
    unfold Loaded.Dashboard.sales_by_product. apply in_map_iff. exists g. now split.
Qed.

Lemma some_product_at_average_witness :
  (exists e, In e (Loaded.Main.sales_by_product Loaded.mixed_sales) /\
             (Loaded.exact_mean (Loaded.positive_revenue Loaded.mixed_sales)
              <= Loaded.exact_mean
                   (Loaded.sales_of Loaded.Product Loaded.mixed_sales (fst (fst e))))%Q) /\
  (exists e, In e (Loaded.Dashboard.sales_by_product Loaded.mixed_sales) /\
             (Loaded.exact_mean (Loaded.positive_revenue Loaded.mixed_sales)
              <= Loaded.exact_mean
                   (Loaded.sales_of Loaded.Product Loaded.mixed_sales (fst (fst e))))%Q).
Proof.
  apply (some_product_at_average Loaded.mixed_sales).
  - intros r [<- | [<- | [<- | [<- | []]]]] H; cbn in *; (reflexivity || discriminate).
  - intros r [<- | [<- | [<- | [<- | []]]]] H; cbn in *; discriminate.
  - eexists. split; [left; reflexivity | reflexivity].
Defined.

(** C10 as stated fails, on tables that both dashboards run through.
    Three sales of one product at 0.1, 0.2 and 0.3, all named: the
    average sale value is 0.20000000000000004 ([mean()] of the column),
    the product's own average is 0.19999999999999998 (the mean of its
    group), and the only product is tagged 'red'.  And a large sale
    without a product raises the overall average above the only
    product's own average. *)
Lemma no_green_product :
  Loaded.metrics Loaded.three_sales
  = Ok (Loaded.mkMetrics 3 0.6000000000000001%float 0.20000000000000004%float "A") /\
  forallb (fun r => present (Loaded.Product r)) Loaded.three_sales = true /\
  Loaded.avg_sale_value Loaded.three_sales = 0.20000000000000004%float /\
  map (fun e => Loaded.Main.AvgSaleValue (snd (fst e)))
      (Loaded.Main.sales_by_product Loaded.three_sales)
  = [0.19999999999999998%float] /\
  map snd (Loaded.Main.sales_by_product Loaded.three_sales) = ["red"] /\
  map snd (Loaded.Dashboard.sales_by_product Loaded.three_sales) = ["red"] /\
  Loaded.metrics Loaded.unnamed_big_sale
  = Ok (Loaded.mkMetrics 2 110%float 55%float "A") /\
  map snd (Loaded.Main.sales_by_product Loaded.unnamed_big_sale) = ["red"] /\
  map snd (Loaded.Dashboard.sales_by_product Loaded.unnamed_big_sale) = ["red"].
Proof. repeat split. Qed.

End LoadedColours.

(* ================================================================== *)
(** ** Count tables on the loaded frame *)
(* ================================================================== *)

Section NullableKeys.
Context {K R : Type} (eqb : K -> K -> bool).
Hypothesis eqb_eq : forall x y, eqb x y = true <-> x = y.
Variables (lek : K -> K -> bool) (key : R -> option K).

Lemma dropna_length (rows : list R) :
  List.length (dropna (map key rows))
  = List.length (filter (fun r => present (key r)) rows).
Proof.
  induction rows as [|r rows IH]; [reflexivity|].
  cbn [map dropna flat_map filter]. fold (dropna (map key rows)).
  destruct (key r); cbn [present app List.length]; now rewrite IH.
Qed.

Lemma occurrences_key (k : K) (rows : list R) :
  occurrences eqb k (dropna (map key rows))
  = Z.of_nat (List.length (filter (has_key eqb key k) rows)).
Proof.
  unfold occurrences. f_equal.
  induction rows as [|r rows IH]; [reflexivity|].
  cbn [map dropna flat_map filter]. fold (dropna (map key rows)).
  unfold has_key at 1. destruct (key r) as [k'|]; [|exact IH].
  cbn [app filter]. destruct (eqb k k'); cbn [List.length]; now rewrite IH.
Qed.

(** [groupby(...).size()] on a key that may be missing counts the rows
    that have the key. *)
Lemma size_groupby_counts (rows : list R) :
  counts_exactly eqb (dropna (map key rows)) (size (groupby eqb lek key rows)).
Proof.
  assert (Hfst : map fst (size (groupby eqb lek key rows))
                 = sort lek (unique eqb (dropna (map key rows)))).
  { unfold size. rewrite map_map. cbn [fst]. apply (groupby_keys eqb lek key). }
  split; [|split].
  - rewrite Hfst. now apply group_keys_NoDup.
  - intros k. now rewrite Hfst, sort_In, (unique_In eqb eqb_eq).
  - intros k c H. unfold size in H. apply in_map_iff in H.
    destruct H as [[k' g] [E Hg]]. cbn [fst snd] in E. inversion E; subst. clear E.
    pose proof (groupby_nonempty eqb eqb_eq lek key rows k g Hg) as Hne.
    apply (groupby_In eqb eqb_eq) in Hg. destruct Hg as [_ ->].
    split; [now rewrite occurrences_key | assumption].
Qed.

End NullableKeys.

Lemma requests_per_hour_counts (df : Loaded.Frame) :
  counts_exactly Z.eqb (dropna (map Loaded.Hour df)) (Loaded.requests_per_hour df).
Proof.
  unfold Loaded.requests_per_hour, sort_index.
  apply (counts_exactly_perm Z.eqb _ (value_counts Z.eqb (dropna (map Loaded.Hour df))));
    [symmetry; apply sort_perm | apply value_counts_exact, Z.eqb_eq].
Qed.

(** The hour histogram lists each hour that occurs once, in strictly
    ascending order, each with the number of rows of that hour; a row
    whose time is missing is in no bar, so the counts add up to the
    number of rows that have an hour. *)
Theorem requests_per_hour_ascending :
  forall df : Loaded.Frame,
    StronglySorted (fun a b : Z * Z => fst a < fst b) (Loaded.requests_per_hour df) /\
    counts_exactly Z.eqb (dropna (map Loaded.Hour df)) (Loaded.requests_per_hour df) /\
    total (map snd (Loaded.requests_per_hour df))
    = Z.of_nat (List.length (Loaded.rows_with Loaded.Hour df)).
Proof.
  intros df. split; [|split].
  - apply (StronglySorted_strict fst (fun a b : Z * Z => fst a <= fst b)).
    + intros a b. lia.
    + apply (requests_per_hour_counts df).
    + unfold Loaded.requests_per_hour, sort_index.
      apply (StronglySorted_impl (fun a b : Z * Z => (fst a <=? fst b) = true)).
      * intros a b _ _. apply Z.leb_le.
      * apply sort_strongly_sorted.
        -- intros a b. rewrite !Z.leb_le. lia.
        -- intros a b c. rewrite !Z.leb_le. lia.
  - apply requests_per_hour_counts.
  - rewrite (counts_exactly_total Z.eqb Z.eqb_eq _ _ (requests_per_hour_counts df)).
    unfold Loaded.rows_with. now rewrite dropna_length.
Qed.

Lemma loaded_type_country_counts (df : Loaded.Frame) :
  counts_exactly pair_eqb (Loaded.type_pairs df) (Loaded.type_country df).
Proof. apply (size_groupby_counts pair_eqb pair_eqb_eq). Qed.

Lemma pair_key_present (r : Loaded.Row) :
  present (Loaded.pair_key r) = present (Loaded.Country r).
Proof. unfold Loaded.pair_key. now destruct (Loaded.Country r). Qed.

(** Every row that has a status is counted once in the status table,
    every row that has a country once in the Country x RequestType
    table, and every "Scheduled Demo" row that has a country once in the
    demo table; a row whose cell is missing is counted nowhere, so no
    table counts more than the number of rows. *)
Theorem every_row_counted_once :
  forall df : Loaded.Frame,
    total (map snd (Loaded.status_counts df))
    = Z.of_nat (List.length (Loaded.rows_with Loaded.Status df)) /\
    total (map snd (Loaded.type_country df))
    = Z.of_nat (List.length (Loaded.rows_with Loaded.Country df)) /\
    total (map snd (Loaded.demo_by_country df))
    = Z.of_nat (List.length (Loaded.rows_with Loaded.Country
                                              (Loaded.of_type "Scheduled Demo" df))) /\
    total (map snd (Loaded.status_counts df)) <= Loaded.total_requests df /\
    total (map snd (Loaded.type_country df)) <= Loaded.total_requests df.
Proof.
  intros df.
  assert (Hs : total (map snd (Loaded.status_counts df))
               = Z.of_nat (List.length (Loaded.rows_with Loaded.Status df))).
  { unfold Loaded.status_counts, Loaded.rows_with.
    now rewrite (value_counts_total _ Z.eqb_eq), dropna_length. }
  assert (Ht : total (map snd (Loaded.type_country df))
               = Z.of_nat (List.length (Loaded.rows_with Loaded.Country df))).
  { rewrite (counts_exactly_total pair_eqb pair_eqb_eq _ _
               (loaded_type_country_counts df)).
    unfold Loaded.type_pairs, Loaded.rows_with. rewrite dropna_length.
    do 2 f_equal. apply filter_ext. intros r. apply pair_key_present. }
  split; [exact Hs|]. split; [exact Ht|]. split.
  - unfold Loaded.demo_by_country, Loaded.rows_with.
    now rewrite (value_counts_total _ String.eqb_eq), dropna_length.
  - rewrite Hs, Ht. unfold Loaded.total_requests, Loaded.rows_with.
    pose proof (filter_length_le (fun r => present (Loaded.Status r)) df).
    pose proof (filter_length_le (fun r => present (Loaded.Country r)) df).
    lia.
Qed.

(* ================================================================== *)
(** ** When the metrics exist, and what the revenue rows hold *)
(* ================================================================== *)

Lemma loaded_sold_products_In (df : Loaded.Frame) (p : string) :
  In p (dropna (map Loaded.Product (Loaded.positive_revenue df)))
  <-> exists r, In r df /\ Float64.gt0 (Loaded.Revenue r) = true
                /\ Loaded.Product r = Some p.
Proof.
  rewrite (dropna_In (K := string)), in_map_iff. split.
  - intros [r [E Hr]]. apply loaded_positive_revenue_In in Hr. exists r. tauto.
  - intros [r [Hr [Hpos E]]]. exists r. split; [assumption|].
    now apply loaded_positive_revenue_In.
Qed.

Lemma loaded_top_product_Ok_iff (df : Loaded.Frame) :
  (exists p, Loaded.top_product df = Ok p)
  <-> exists r, In r df /\ Float64.gt0 (Loaded.Revenue r) = true
                /\ Loaded.Product r <> None.
Proof.
  unfold Loaded.top_product.
  set (sold := dropna (map Loaded.Product (Loaded.positive_revenue df))).
  rewrite (idxmax_sorted _ (value_counts_desc String.eqb sold)).
  split.
  - intros [p Hp].
    destruct (value_counts String.eqb sold) as [|[k c] t] eqn:E; [discriminate|].
    assert (Hin : In (k, c) (value_counts String.eqb sold)) by (rewrite E; now left).
    apply (value_counts_In String.eqb String.eqb_eq) in Hin.
    destruct Hin as [Hin _]. apply loaded_sold_products_In in Hin.
    destruct Hin as [r [Hr [Hpos Hk]]]. exists r.
    repeat split; try assumption. now rewrite Hk.
  - intros [r [Hr [Hpos Hname]]].
    destruct (Loaded.Product r) as [p0|] eqn:E0; [|now destruct Hname].
    assert (Hin : In (p0, occurrences String.eqb p0 sold) (value_counts String.eqb sold)).
    { apply (value_counts_In String.eqb String.eqb_eq). split; [|reflexivity].
      apply loaded_sold_products_In. now exists r. }
    destruct (value_counts String.eqb sold) as [|row t];
      [destruct Hin | eexists; reflexivity].
Qed.

(** The metrics block runs to its end exactly when some positive-revenue
    row names a product.  When it does, the request total is the number
    of rows, the revenue total and the average sale value are the
    float64 sum of the revenue column and the float64 mean of its
    positive cells, and the top product is the product of some
    positive-revenue row. *)
Theorem metrics_exist_iff_named_sale :
  forall df : Loaded.Frame,
    ((exists m, Loaded.metrics df = Ok m)
     <-> exists r, In r df /\ Float64.gt0 (Loaded.Revenue r) = true
                   /\ Loaded.Product r <> None) /\
    (forall m, Loaded.metrics df = Ok m ->
       Loaded.m_total_requests m = Z.of_nat (List.length df) /\
       Loaded.m_total_revenue m = Float64.nansum (map Loaded.Revenue df) /\
       Loaded.m_avg_sale_value m
       = Float64.nanmean (filter Float64.gt0 (map Loaded.Revenue df)) /\
       Loaded.top_product df = Ok (Loaded.m_top_product m) /\
       exists r, In r df /\ Float64.gt0 (Loaded.Revenue r) = true
                 /\ Loaded.Product r = Some (Loaded.m_top_product m)).
Proof.
  intros df. split.
  - rewrite <- loaded_top_product_Ok_iff. unfold Loaded.metrics, bind.
    destruct (Loaded.top_product df) as [p|e]; split.
    + intros _. now exists p.
    + intros _. eexists. reflexivity.
    + intros [m Hm]. discriminate.
    + intros [p Hp]. discriminate.
  - intros m Hm. unfold Loaded.metrics, bind in Hm.
    destruct (Loaded.top_product df) as [p|e] eqn:Etop; [|discriminate].
    injection Hm as <-.
    cbn [Loaded.m_total_requests Loaded.m_total_revenue Loaded.m_avg_sale_value
         Loaded.m_top_product].
    split; [reflexivity|]. split; [reflexivity|]. split.
    { unfold Loaded.avg_sale_value. now rewrite loaded_positive_column. }
    split; [reflexivity|].
    apply loaded_sold_products_In.
    unfold Loaded.top_product in Etop.
    set (sold := dropna (map Loaded.Product (Loaded.positive_revenue df))) in *.
    rewrite (idxmax_sorted _ (value_counts_desc String.eqb sold)) in Etop.
    destruct (value_counts String.eqb sold) as [|[k c] t] eqn:E; [discriminate|].
    injection Etop as <-. cbn [fst].
    assert (Hin : In (k, c) (value_counts String.eqb sold)) by (rewrite E; now left).
    now apply (value_counts_In String.eqb String.eqb_eq) in Hin.
Qed.

Lemma loaded_count_sales (rows : list Loaded.Row) :
  (forall r, In r rows -> Float64.gt0 (Loaded.Revenue r) = true) ->
  Float64.count (map Loaded.Revenue rows) = Z.of_nat (List.length rows).
Proof.
  intros H. unfold Float64.count. rewrite notna_of_positive.
  - now rewrite length_map.
  - intros x Hx. apply in_map_iff in Hx. destruct Hx as [r [<- Hr]]. now apply H.
Qed.

(** Every row of main.py's revenue tables counts the positive-revenue
    rows of its key, at least one; a product row is tagged 'green'
    exactly when the float64 mean of its group is at least the float64
    average sale value, and 'red' otherwise.  The sale counts by country
    add up to the number of positive-revenue rows that have a country,
    those by product to the number that name a product. *)
Theorem revenue_rows_consistent :
  forall df : Loaded.Frame,
    Forall (fun e : string * Loaded.Main.Sales =>
              Loaded.Main.CountSales (snd e)
              = Z.of_nat (List.length (Loaded.sales_of Loaded.Country df (fst e))) /\
              1 <= Loaded.Main.CountSales (snd e))
           (Loaded.Main.sales_by_country df) /\
    Forall (fun row : (string * Loaded.Main.Sales) * string =>
              let e := fst row in
              Loaded.Main.CountSales (snd e)
              = Z.of_nat (List.length (Loaded.sales_of Loaded.Product df (fst e))) /\
              1 <= Loaded.Main.CountSales (snd e) /\
              (snd row = "green"
               <-> Float64.ge (Loaded.Main.AvgSaleValue (snd e))
                              (Loaded.avg_sale_value df) = true) /\
              (snd row = "red"
               <-> Float64.ge (Loaded.Main.AvgSaleValue (snd e))
                              (Loaded.avg_sale_value df) = false))
           (Loaded.Main.sales_by_product df) /\
    total (map (fun e => Loaded.Main.CountSales (snd e)) (Loaded.Main.sales_by_country df))
    = Z.of_nat (List.length (Loaded.keyed_sales Loaded.Country df)) /\
    total (map (fun row => Loaded.Main.CountSales (snd (fst row)))
               (Loaded.Main.sales_by_product df))
    = Z.of_nat (List.length (Loaded.keyed_sales Loaded.Product df)).
Proof.
  intros df.
  assert (Hcount : forall (key : Loaded.Row -> option string) k g,
             In (k, g) (groupby String.eqb String.leb key (Loaded.positive_revenue df)) ->
             Loaded.Main.CountSales (Loaded.Main.agg g)
             = Z.of_nat (List.length (Loaded.sales_of key df k)) /\
             1 <= Loaded.Main.CountSales (Loaded.Main.agg g)).
  { intros key k g Hg. destruct (loaded_sales_group key df k g Hg) as [Eg [Hpos Hlen]].
    cbn [Loaded.Main.agg Loaded.Main.CountSales].
    rewrite (loaded_count_sales g Hpos). split; [now rewrite Eg | assumption]. }
  assert (Htotal : forall key : Loaded.Row -> option string,
             total (map (fun g => Loaded.Main.CountSales (Loaded.Main.agg (snd g)))
                        (groupby String.eqb String.leb key (Loaded.positive_revenue df)))
             = Z.of_nat (List.length (Loaded.keyed_sales key df))).
  { intros key.
    set (groups := groupby String.eqb String.leb key (Loaded.positive_revenue df)).
    assert (Hmap : map (fun g => Loaded.Main.CountSales (Loaded.Main.agg (snd g))) groups
                   = map (fun g => Z.of_nat (List.length (snd g))) groups).
    { apply map_ext_in. intros [k g] Hg. cbn [snd].
      destruct (loaded_sales_group key df k g Hg) as [_ [Hpos _]].
      cbn [Loaded.Main.agg Loaded.Main.CountSales]. now apply loaded_count_sales. }
    rewrite Hmap, total_lengths. unfold groups.
    rewrite (Permutation_length
               (groupby_partition String.eqb String.eqb_eq String.leb key
                  (Loaded.positive_revenue df))).
    now rewrite loaded_keyed_sales. }
  split; [|split; [|split]].
  - apply Forall_forall. intros e He.
    unfold Loaded.Main.sales_by_country in He. apply in_map_iff in He.
    destruct He as [[k g] [<- Hg]]. cbn [fst snd]. now apply Hcount.
  - apply Forall_forall. intros row Hrow.
    unfold Loaded.Main.sales_by_product in Hrow. apply in_map_iff in Hrow.
    destruct Hrow as [[k g] [<- Hg]]. cbn zeta. cbn [fst snd].
    destruct (Hcount Loaded.Product k g Hg) as [H1 H2].
    split; [assumption|]. split; [assumption|].
    unfold Loaded.Color.
    destruct (Float64.ge (Loaded.Main.AvgSaleValue (Loaded.Main.agg g))
                         (Loaded.avg_sale_value df));
      repeat split; intros; (reflexivity || discriminate).
  - unfold Loaded.Main.sales_by_country. rewrite map_map. cbn [snd]. apply Htotal.
  - unfold Loaded.Main.sales_by_product. rewrite map_map. cbn [fst snd]. apply Htotal.
Qed.

(* ================================================================== *)
(** ** The revenue by country of ai_solutions_sales.py *)
(* ================================================================== *)

Lemma loaded_batch_country_keys (df : Loaded.Frame) :
  map fst (Loaded.Batch.sales_by_country df)
  = sort String.leb (unique String.eqb (dropna (map Loaded.Country df))).
Proof.
  unfold Loaded.Batch.sales_by_country.
  apply (summary_keys Loaded.Country
           (fun g => Float64.group_sum (map Loaded.Revenue g)) df).
Qed.

(** The by-country revenue of ai_solutions_sales.py lists every country
    of the log once, in strictly ascending order, each with the
    compensated float64 sum of the revenue of all its rows, whatever
    their revenue; the groups, put end to end, are the rows of the log
    that have a country, each once. *)
Theorem batch_sales_by_country_covers_log :
  forall df : Loaded.Frame,
    StronglySorted string_lt (map fst (Loaded.Batch.sales_by_country df)) /\
    (forall c, In c (map fst (Loaded.Batch.sales_by_country df))
               <-> In (Some c) (map Loaded.Country df)) /\
    (forall c v, In (c, v) (Loaded.Batch.sales_by_country df)
                 -> v = Float64.group_sum
                          (map Loaded.Revenue (Loaded.rows_of_country c df))) /\
    Permutation (flat_map (fun c => Loaded.rows_of_country c df)
                          (map fst (Loaded.Batch.sales_by_country df)))
                (Loaded.rows_with Loaded.Country df).
Proof.
  intros df. split; [|split; [|split]].
  - rewrite loaded_batch_country_keys. apply sorted_unique_strings.
  - intros c. rewrite loaded_batch_country_keys, sort_In.
    rewrite (unique_In String.eqb String.eqb_eq). apply dropna_In.
  - intros c v H. unfold Loaded.Batch.sales_by_country in H. apply in_map_iff in H.
    destruct H as [[k g] [E Hg]]. cbn [fst snd] in E. inversion E; subst. clear E.
    apply (groupby_In String.eqb String.eqb_eq) in Hg. now destruct Hg as [_ ->].
  - rewrite loaded_batch_country_keys.
    rewrite <- (groupby_partition String.eqb String.eqb_eq String.leb
                  Loaded.Country df).
    unfold groupby. rewrite (flat_map_concat_map snd), map_map. cbn [snd].
    now rewrite <- flat_map_concat_map.
Qed.

(* ================================================================== *)
(** ** The grid and the stacked bar chart of ai_solutions_sales.py *)
(* ================================================================== *)

Lemma loaded_type_pairs_In (df : Loaded.Frame) (c t : string) :
  In (c, t) (Loaded.type_pairs df)
  <-> exists r, In r df /\ Loaded.Country r = Some c
                /\ Loaded.RequestType (Loaded.URL r) = t.
Proof.
  unfold Loaded.type_pairs. rewrite (dropna_In (K := string * string)), in_map_iff.
  unfold Loaded.pair_key. split.
  - intros [r [E Hr]]. exists r. destruct (Loaded.Country r) as [c'|]; [|discriminate].
    inversion E; subst. tauto.
  - intros [r [Hr [Ec Et]]]. exists r. rewrite Ec, Et. tauto.
Qed.

Lemma loaded_type_country_keys (df : Loaded.Frame) (k : string * string) :
  In k (map fst (Loaded.type_country df)) <-> In k (Loaded.type_pairs df).
Proof.
  pose proof (loaded_type_country_counts df) as [_ [Hk _]]. symmetry. apply Hk.
Qed.

Lemma loaded_grid_cell (df : Loaded.Frame) (i c : string) :
  match lookup String.eqb String.eqb (i, c) (Loaded.type_country df) with
  | Some n => n
  | None => 0
  end = occurrences pair_eqb (i, c) (Loaded.type_pairs df).
Proof.
  pose proof (loaded_type_country_counts df) as [_ [Hk Hc]].
  destruct (lookup String.eqb String.eqb (i, c) (Loaded.type_country df)) as [n|] eqn:E.
  - apply lookup_Some in E. now apply Hc in E.
  - apply lookup_None in E. rewrite <- Hk in E.
    symmetry. now apply (occurrences_absent pair_eqb pair_eqb_eq).
Qed.

Lemma loaded_occurrences_rows_of_pair (df : Loaded.Frame) (c t : string) :
  occurrences pair_eqb (c, t) (Loaded.type_pairs df) = Loaded.rows_of_pair c t df.
Proof.
  unfold Loaded.type_pairs, Loaded.rows_of_pair. rewrite occurrences_key.
  do 2 f_equal. apply filter_ext. intros r.
  unfold has_key, Loaded.pair_key.
  destruct (Loaded.Country r) as [c'|]; [|reflexivity].
  unfold pair_eqb. cbn [fst snd]. f_equal. apply String.eqb_sym.
Qed.

Lemma loaded_grid_lines (df : Loaded.Frame) :
  Loaded.Batch.type_country df
  = map (fun i => (i, map (fun c => (c, Loaded.rows_of_pair i c df))
                          (Loaded.Batch.columns df)))
        (sort String.leb
              (unique String.eqb
                      (map (fun e => fst (fst e)) (Loaded.type_country df)))).
Proof.
  unfold Loaded.Batch.type_country, Loaded.Batch.columns.
  unfold fillna, unstack. rewrite map_map. apply map_ext. intros i.
  cbn [fst snd]. f_equal. rewrite map_map. apply map_ext. intros c.
  cbn [fst snd]. f_equal.
  now rewrite loaded_grid_cell, loaded_occurrences_rows_of_pair.
Qed.

Lemma loaded_grid_index (df : Loaded.Frame) :
  map fst (Loaded.Batch.type_country df)
  = sort String.leb
         (unique String.eqb (map (fun e => fst (fst e)) (Loaded.type_country df))).
Proof. rewrite loaded_grid_lines, map_map. cbn [fst]. apply map_id. Qed.

Lemma loaded_columns_In (df : Loaded.Frame) (t : string) :
  In t (Loaded.Batch.columns df)
  <-> exists r, In r df /\ Loaded.Country r <> None
                /\ Loaded.RequestType (Loaded.URL r) = t.
Proof.
  unfold Loaded.Batch.columns.
  rewrite sort_In, (unique_In String.eqb String.eqb_eq), in_map_iff. split.
  - intros [[[c t'] n] [E H]]. cbn [fst snd] in E. subst t'.
    assert (Hk : In (c, t) (map fst (Loaded.type_country df)))
      by (apply in_map_iff; now exists ((c, t), n)).
    apply loaded_type_country_keys, loaded_type_pairs_In in Hk.
    destruct Hk as [r [Hr [Ec Et]]]. exists r. rewrite Ec.
    repeat split; [assumption | discriminate | assumption].
  - intros [r [Hr [Ec Et]]].
    destruct (Loaded.Country r) as [c|] eqn:E; [|now destruct Ec].
    assert (Hk : In (c, t) (map fst (Loaded.type_country df))).
    { apply loaded_type_country_keys, loaded_type_pairs_In. now exists r. }
    apply in_map_iff in Hk. destruct Hk as [[k n] [Ek Hin]]. cbn [fst] in Ek. subst k.
    now exists ((c, t), n).
Qed.

Lemma loaded_columns_NoDup (df : Loaded.Frame) : NoDup (Loaded.Batch.columns df).
Proof.
  unfold Loaded.Batch.columns.
  apply (Permutation_NoDup (Permutation_sym (sort_perm _ _))).
  apply (unique_NoDup String.eqb String.eqb_eq).
Qed.

(** The grid is rectangular: its lines are the countries of the log in
    strictly ascending order, its columns the request types of the rows
    that have a country, in strictly ascending order, and every line has
    one cell per column, in column order, holding the number of rows of
    that country and type.  A row whose country is missing is in no
    cell, and a request type seen on such rows only has no column. *)
Theorem batch_grid_is_rectangular :
  forall df : Loaded.Frame,
    Loaded.Batch.type_country df
    = map (fun c => (c, map (fun t => (t, Loaded.rows_of_pair c t df))
                            (Loaded.Batch.columns df)))
          (map fst (Loaded.Batch.type_country df)) /\
    StronglySorted string_lt (map fst (Loaded.Batch.type_country df)) /\
    StronglySorted string_lt (Loaded.Batch.columns df) /\
    (forall c, In c (map fst (Loaded.Batch.type_country df))
               <-> In (Some c) (map Loaded.Country df)) /\
    (forall t, In t (Loaded.Batch.columns df)
               <-> exists r, In r df /\ Loaded.Country r <> None
                             /\ Loaded.RequestType (Loaded.URL r) = t).
Proof.
  intros df. split; [|split; [|split; [|split]]].
  - rewrite loaded_grid_index. apply loaded_grid_lines.
  - rewrite loaded_grid_index. apply sorted_unique_strings.
  - apply sorted_unique_strings.
  - intros c. rewrite loaded_grid_index, sort_In, (unique_In String.eqb String.eqb_eq).
    rewrite !in_map_iff. split.
    + intros [[[c' t] n] [E H]]. cbn [fst] in E. subst c'.
      assert (Hk : In (c, t) (map fst (Loaded.type_country df)))
        by (apply in_map_iff; now exists ((c, t), n)).
      apply loaded_type_country_keys, loaded_type_pairs_In in Hk.
      destruct Hk as [r [Hr [Ec _]]]. now exists r.
    + intros [r [E Hr]].
      assert (Hk : In (c, Loaded.RequestType (Loaded.URL r))
                      (map fst (Loaded.type_country df))).
      { apply loaded_type_country_keys, loaded_type_pairs_In. now exists r. }
      apply in_map_iff in Hk. destruct Hk as [[k n] [Ek Hin]]. cbn [fst] in Ek. subst k.
      now exists ((c, Loaded.RequestType (Loaded.URL r)), n).
  - apply loaded_columns_In.
Qed.

(** The stacked bar chart gets its two columns exactly when the log has
    a row of type "AI Assistant" with a country and a row of type
    "Other" with a country; otherwise the column selection raises
    [KeyError] naming the labels that no such row has.  When it succeeds
    there is one line per country of the grid, holding the two row
    counts of that country, zero included. *)
Theorem ai_vs_other_needs_both_types :
  forall df : Loaded.Frame,
    ((exists lines, Loaded.Batch.ai_vs_other df = BatchCharts.Selected lines)
     <-> (exists r, In r df /\ Loaded.Country r <> None
                    /\ Loaded.RequestType (Loaded.URL r) = "AI Assistant")
         /\ (exists r, In r df /\ Loaded.Country r <> None
                       /\ Loaded.RequestType (Loaded.URL r) = "Other")) /\
    (forall missing,
        Loaded.Batch.ai_vs_other df = BatchCharts.KeyError missing ->
        missing <> [] /\
        forall t, In t missing <->
                  In t ["AI Assistant"; "Other"]
                  /\ ~ exists r, In r df /\ Loaded.Country r <> None
                                 /\ Loaded.RequestType (Loaded.URL r) = t) /\
    (forall lines,
        Loaded.Batch.ai_vs_other df = BatchCharts.Selected lines ->
        lines = map (fun c => (c, [("AI Assistant", Loaded.rows_of_pair c "AI Assistant" df);
                                   ("Other", Loaded.rows_of_pair c "Other" df)]))
                    (map fst (Loaded.Batch.type_country df))).
Proof.
  intros df. unfold Loaded.Batch.ai_vs_other, BatchCharts.select_columns.
  cbn [filter].
  pose proof (loaded_columns_In df "AI Assistant") as HA.
  pose proof (loaded_columns_In df "Other") as HO.
  pose proof (isin_In String.eqb String.eqb_eq "AI Assistant" (Loaded.Batch.columns df)) as IA.
  pose proof (isin_In String.eqb String.eqb_eq "Other" (Loaded.Batch.columns df)) as IO.
  destruct (isin String.eqb "AI Assistant" (Loaded.Batch.columns df)) eqn:EA;
    destruct (isin String.eqb "Other" (Loaded.Batch.columns df)) eqn:EO; cbn [negb].
  - (* both columns are there *)
    assert (InA : In "AI Assistant" (Loaded.Batch.columns df)) by now apply IA.
    assert (InO : In "Other" (Loaded.Batch.columns df)) by now apply IO.
    split; [|split].
    + split; [intros _; split; [now apply HA | now apply HO]|].
      intros _. eexists. reflexivity.
    + intros missing H. discriminate.
    + intros lines [= <-]. rewrite loaded_grid_index, loaded_grid_lines, !map_map.
      cbn [fst snd]. apply map_ext. intros c. f_equal. cbn [flat_map].
      rewrite !(pick_cell _ _ _ (loaded_columns_NoDup df)) by assumption.
      reflexivity.
  - (* "Other" is missing *)
    assert (NO : ~ In "Other" (Loaded.Batch.columns df))
      by (intros H; apply IO in H; discriminate).
    split; [|split].
    + split; [intros [lines H]; discriminate|].
      intros [_ H]. apply HO in H. contradiction.
    + intros missing [= <-]. split; [discriminate|].
      intros t. cbn [In]. split.
      * intros [<- | []]. split; [tauto|]. now rewrite <- HO.
      * intros [[<- | [<- | []]] Hno]; [|now left].
        exfalso. apply Hno. apply HA. now apply IA.
    + intros lines H. discriminate.
  - (* "AI Assistant" is missing *)
    assert (NA : ~ In "AI Assistant" (Loaded.Batch.columns df))
      by (intros H; apply IA in H; discriminate).
    split; [|split].
    + split; [intros [lines H]; discriminate|].
      intros [H _]. apply HA in H. contradiction.
    + intros missing [= <-]. split; [discriminate|].
      intros t. cbn [In]. split.
      * intros [<- | []]. split; [tauto|]. now rewrite <- HA.
      * intros [[<- | [<- | []]] Hno]; [now left|].
        exfalso. apply Hno. apply HO. now apply IO.
    + intros lines H. discriminate.
  - (* both are missing *)
    assert (NA : ~ In "AI Assistant" (Loaded.Batch.columns df))
      by (intros H; apply IA in H; discriminate).
    assert (NO : ~ In "Other" (Loaded.Batch.columns df))
      by (intros H; apply IO in H; discriminate).
    split; [|split].
    + split; [intros [lines H]; discriminate|].
      intros [H _]. apply HA in H. contradiction.
    + intros missing [= <-]. split; [discriminate|].
      intros t. cbn [In]. split.
      * intros [<- | [<- | []]]; (split; [tauto|]);
          [now rewrite <- HA | now rewrite <- HO].
      * intros [[<- | [<- | []]] _]; tauto.
    + intros lines H. discriminate.
Qed.

(** A log whose only row of type "Other" has no country: the grid has
    no "Other" column, the selection of line 62 raises, and the revenue
    by country of line 83 is never computed. *)
Example ai_vs_other_blank_country :
  map (fun r => Loaded.RequestType (Loaded.URL r)) Loaded.blank_country
  = ["AI Assistant"; "Scheduled Demo"; "Other"] /\
  Loaded.Batch.columns Loaded.blank_country = ["AI Assistant"; "Scheduled Demo"] /\
  Loaded.Batch.ai_vs_other Loaded.blank_country = BatchCharts.KeyError ["Other"] /\
  Loaded.Batch.run_sales_by_country Loaded.blank_country
  = BatchCharts.KeyError ["Other"].
Proof. repeat split. Qed.
